(** * pyHydrabus: the MMC/eMMC bridge client (pyHydrabus/mmc.py)

    A shallow embedding of the [MMC] protocol handler.  The handler talks
    to the Hydrabus through two transport primitives, [write(bytes)] and
    [read(n)]; every method is a fixed sequence of such calls.  The
    embedding is a state-and-exception monad over the fields of the Python
    object, parametric in the transport. *)

From Stdlib Require Import ZArith List String Lia.
From Stdlib.Strings Require Import Byte.
From stdpp Require Import gmap.
Import ListNotations.
Local Open Scope Z_scope.

(** ** Python bytes and [int.to_bytes] / [int.from_bytes] *)

Abbreviation bytes := (list byte).

(** Exceptions the modelled code can raise. *)
Inductive exn : Type :=
| OverflowError (msg : string).

Definition byte_of_Z (z : Z) : byte :=
  match Byte.of_N (Z.to_N z) with
  | Some b => b
  | None => x00
  end.

Definition Z_of_byte (b : byte) : Z := Z.of_N (Byte.to_N b).

(** The [len] least significant base-256 digits of [n], lowest first. *)
Fixpoint le_digits (len : nat) (n : Z) : bytes :=
  match len with
  | O => []
  | S k => byte_of_Z (n mod 256) :: le_digits k (n / 256)
  end.

(** [n.to_bytes(len, byteorder="big")]: unsigned, raises [OverflowError]
    on a negative [n] and on an [n] that does not fit in [len] bytes. *)
Definition to_bytes (n : Z) (len : nat) : exn + bytes :=
  if n <? 0 then inl (OverflowError "can't convert negative int to unsigned")
  else if 256 ^ Z.of_nat len <=? n then inl (OverflowError "int too big to convert")
  else inr (rev (le_digits len n)).

(** [int.from_bytes(bs, byteorder="little")]; the empty string gives 0. *)
Fixpoint from_bytes_little (bs : bytes) : Z :=
  match bs with
  | [] => 0
  | b :: rest => Z_of_byte b + 256 * from_bytes_little rest
  end.

(** [int.from_bytes(bs, byteorder="big")]. *)
Definition from_bytes_big (bs : bytes) : Z := from_bytes_little (rev bs).

(** The four bytes of an unsigned 32-bit value, most significant first. *)
Definition be32 (n : Z) : bytes :=
  [ byte_of_Z (n / 2 ^ 24 mod 256); byte_of_Z (n / 2 ^ 16 mod 256);
    byte_of_Z (n / 2 ^ 8 mod 256); byte_of_Z (n mod 256) ].

Definition bytes_eq_dec : forall a b : bytes, {a = b} + {a <> b} :=
  List.list_eq_dec Byte.byte_eq_dec.
Arguments bytes_eq_dec : simpl never.

(** ** The transport

    [self._hydrabus] is created by the [Protocol] base class, which is not
    part of mmc.py; the handler only uses its [write] and [read] methods,
    so the transport is a parameter with exactly this interface.  A read
    returns whatever the transport hands back (the contract is [n] bytes). *)

Class Transport (D : Type) : Type := {
  hb_write : bytes -> D -> D;
  hb_read : nat -> D -> bytes * D
}.

(** A transport that records the calls made to it, in order, and forwards
    them to the transport it wraps. *)
Inductive call : Type :=
| Write (data : bytes)
| Read (n : nat).

Record Spy (D : Type) : Type := mkSpy { inner : D; calls : list call }.
Arguments mkSpy {D} _ _.
Arguments inner {D} _.
Arguments calls {D} _.

#[export] Instance Spy_transport {D} `{Transport D} : Transport (Spy D) := {
  hb_write data s := mkSpy (hb_write data (inner s)) (calls s ++ [Write data]);
  hb_read n s :=
    let (r, d) := hb_read n (inner s) in (r, mkSpy d (calls s ++ [Read n]))
}.

(** A scripted transport: the bytes the device will answer, in order.
    Writes are swallowed; a read takes the next [n] bytes (fewer when the
    script runs out). *)
Record Script : Type := mkScript { rx : bytes }.

#[export] Instance Script_transport : Transport Script := {
  hb_write _ s := s;
  hb_read n s := (firstn n (rx s), mkScript (skipn n (rx s)))
}.

(** A transport on which nothing ever arrives and reads give up instead
    of blocking: every read comes back empty. *)
Inductive Silent : Type := silent.

#[export] Instance Silent_transport : Transport Silent := {
  hb_write _ s := s;
  hb_read _ s := ([], s)
}.

(** Modelled from the spec: the mock device of the write-then-read
    property, which the repository does not contain.  It stores the payload
    of each write under its block number and acknowledges it with status 1;
    on a read it answers status 1 followed by the stored block (status 0
    when nothing is stored there).  It sees one transport write at a time:
    an opcode, then the block number, then (for a write) the payload. *)
Module Echo.

Inductive phase : Type :=
| Idle
| WriteAddr
| WriteData (block_num : Z)
| ReadAddr.

Record t : Type := mk {
  store : gmap Z bytes;
  state : phase;
  tx : bytes
}.

Definition receive (data : bytes) (d : t) : t :=
  match state d with
  | Idle =>
      if bytes_eq_dec data [x05] then mk (store d) WriteAddr (tx d)
      else if bytes_eq_dec data [x04] then mk (store d) ReadAddr (tx d)
      else d
  | WriteAddr => mk (store d) (WriteData (from_bytes_big data)) (tx d)
  | WriteData n => mk (<[n := data]> (store d)) Idle (tx d ++ [x01])
  | ReadAddr =>
      match store d !! from_bytes_big data with
      | Some block => mk (store d) Idle (tx d ++ x01 :: block)
      | None => mk (store d) Idle (tx d ++ [x00])
      end
  end.

Definition send (n : nat) (d : t) : bytes * t :=
  (firstn n (tx d), mk (store d) (state d) (skipn n (tx d))).

End Echo.

#[export] Instance Echo_transport : Transport Echo.t := {
  hb_write := Echo.receive;
  hb_read := Echo.send
}.

(** ** The handler *)

Module MMC.

(** The fields [__init__] sets, the transport handle, and the two output
    channels the methods write to ([self._logger.error] and [print]). *)
Record t (D : Type) : Type := mk {
  _rf : Z;
  _mode : Z;
  _config : Z;
  _hydrabus : D;
  logged : list string;
  printed : list string
}.
Arguments mk {D} _ _ _ _ _ _.
Arguments _rf {D} _.
Arguments _mode {D} _.
Arguments _config {D} _.
Arguments _hydrabus {D} _.
Arguments logged {D} _.
Arguments printed {D} _.

Definition set_config {D} (c : Z) (self : t D) : t D :=
  mk (_rf self) (_mode self) c (_hydrabus self) (logged self) (printed self).

Definition set_hydrabus {D} (d : D) (self : t D) : t D :=
  mk (_rf self) (_mode self) (_config self) d (logged self) (printed self).

(** A method: runs on the object, returns a value or raises, and leaves
    the object as it was mutated up to that point. *)
Definition M (D A : Type) : Type := t D -> (exn + A) * t D.

Definition ret {D A} (a : A) : M D A := fun self => (inr a, self).

Definition bind {D A B} (m : M D A) (k : A -> M D B) : M D B :=
  fun self =>
    match m self with
    | (inr a, self') => k a self'
    | (inl e, self') => (inl e, self')
    end.

Definition lift {D A} (r : exn + A) : M D A := fun self => (r, self).

Notation "x <- m ;; k" := (bind m (fun x => k))
  (at level 200, m at level 99, k at level 200, right associativity).
Notation "m ;;; k" := (bind m (fun _ => k))
  (at level 200, k at level 200, right associativity).

Section Methods.
Context {D : Type} `{Transport D}.

Definition hydrabus_write (data : bytes) : M D unit :=
  fun self => (inr tt, set_hydrabus (hb_write data (_hydrabus self)) self).

Definition hydrabus_read (n : nat) : M D bytes :=
  fun self =>
    let (r, d) := hb_read n (_hydrabus self) in (inr r, set_hydrabus d self).

Definition logger_error (msg : string) : M D unit :=
  fun self =>
    (inr tt, mk (_rf self) (_mode self) (_config self) (_hydrabus self)
                (logged self ++ [msg]) (printed self)).

Definition print (msg : string) : M D unit :=
  fun self =>
    (inr tt, mk (_rf self) (_mode self) (_config self) (_hydrabus self)
                (logged self) (printed self ++ [msg])).

Definition get_config : M D Z := fun self => (inr (_config self), self).

Definition put_config (c : Z) : M D unit :=
  fun self => (inr tt, set_config c self).

Definition __MMC_DEFAULT_CONFIG : Z := 0.

(** [__init__]: the base class opens the port and hands over the transport
    handle [hb]; the handler's own part sets the three fields. *)
Definition __init__ (hb : D) : t D :=
  mk 0 0 __MMC_DEFAULT_CONFIG hb [] [].

Definition _configure_port : M D bool :=
  let CMD := 128 in
  c <- get_config ;;
  let CMD := Z.lor CMD c in
  b <- lift (to_bytes CMD 1) ;;
  hydrabus_write b ;;;
  r <- hydrabus_read 1 ;;
  if bytes_eq_dec r [x01] then ret true
  else logger_error "Error setting config." ;;; ret false.

(** The three register queries share their shape in the source; each
    writes its opcode, reads a status it never looks at, and returns the
    next read. *)
Definition cid : M D bytes :=
  let CMD := 2 in
  b <- lift (to_bytes CMD 1) ;;
  hydrabus_write b ;;;
  s <- hydrabus_read 1 ;;
  let status := from_bytes_little s in
  hydrabus_read 16.

Definition csd : M D bytes :=
  let CMD := 3 in
  b <- lift (to_bytes CMD 1) ;;
  hydrabus_write b ;;;
  s <- hydrabus_read 1 ;;
  let status := from_bytes_little s in
  hydrabus_read 16.

Definition ext_csd : M D bytes :=
  let CMD := 6 in
  b <- lift (to_bytes CMD 1) ;;
  hydrabus_write b ;;;
  s <- hydrabus_read 1 ;;
  let status := from_bytes_little s in
  hydrabus_read 512.

(** The [bus_width] property: a pure look at [_config]. *)
Definition bus_width (self : t D) : Z :=
  if Z.land (_config self) 1 =? 0 then 1 else 4.

(** The [bus_width] setter. *)
Definition set_bus_width (value : Z) : M D unit :=
  (if value =? 1 then
     c <- get_config ;; put_config (Z.land c (Z.lnot 1))
   else if value =? 4 then
     c <- get_config ;; put_config (Z.lor c 1)
   else print "Invalid value (1 or 4)") ;;;
  _configure_port ;;;
  ret tt.

Definition write (data : bytes) (block_num : Z) : M D bool :=
  let CMD := 5 in
  b <- lift (to_bytes CMD 1) ;;
  hydrabus_write b ;;;
  bn <- lift (to_bytes block_num 4) ;;
  hydrabus_write bn ;;;
  hydrabus_write data ;;;
  s <- hydrabus_read 1 ;;
  let status := from_bytes_little s in
  ret (status =? 1).

Definition read (block_num : Z) : M D bytes :=
  let CMD := 4 in
  b <- lift (to_bytes CMD 1) ;;
  hydrabus_write b ;;;
  bn <- lift (to_bytes block_num 4) ;;
  hydrabus_write bn ;;;
  s <- hydrabus_read 1 ;;
  let status := from_bytes_little s in
  if status =? 1 then hydrabus_read 512 else ret [].

Definition lock : M D Z :=
  let CMD := 7 in
  b <- lift (to_bytes CMD 1) ;;
  hydrabus_write b ;;;
  s <- hydrabus_read 1 ;;
  let status := from_bytes_little s in
  ret status.

Definition unlock : M D Z :=
  let CMD := 8 in
  b <- lift (to_bytes CMD 1) ;;
  hydrabus_write b ;;;
  s <- hydrabus_read 1 ;;
  let status := from_bytes_little s in
  ret status.

Definition set_password : M D Z :=
  let CMD := 9 in
  b <- lift (to_bytes CMD 1) ;;
  hydrabus_write b ;;;
  s <- hydrabus_read 1 ;;
  let status := from_bytes_little s in
  ret status.

Definition clear_password : M D Z :=
  let CMD := 10 in
  b <- lift (to_bytes CMD 1) ;;
  hydrabus_write b ;;;
  s <- hydrabus_read 1 ;;
  let status := from_bytes_little s in
  ret status.

Definition fail_to_lock : M D Z :=
  let CMD := 11 in
  b <- lift (to_bytes CMD 1) ;;
  hydrabus_write b ;;;
  s <- hydrabus_read 1 ;;
  let status := from_bytes_little s in
  ret status.

Definition is_lock : M D bool :=
  let MMC_IS_LOCK := 240 in
  let MMC_LOCKE_ERROR := 15 in
  let CMD := 12 in
  let return_value := false in
  b <- lift (to_bytes CMD 1) ;;
  hydrabus_write b ;;;
  s <- hydrabus_read 1 ;;
  let status := from_bytes_little s in
  (if Z.land status MMC_LOCKE_ERROR =? 0 then ret tt
   else print "CMD42 Error flag ON") ;;;
  let return_value :=
    if Z.land status MMC_IS_LOCK =? 0 then return_value else true in
  ret return_value.

(** The public operations, as a caller can issue them one after another. *)
Inductive op : Type :=
| Cid
| Csd
| ExtCsd
| GetBusWidth
| SetBusWidth (value : Z)
| WriteBlock (data : bytes) (block_num : Z)
| ReadBlock (block_num : Z)
| Lock
| Unlock
| SetPassword
| ClearPassword
| FailToLock
| IsLock.

(** The object after one operation (whether it returned or raised). *)
Definition exec (o : op) (self : t D) : t D :=
  match o with
  | Cid => snd (cid self)
  | Csd => snd (csd self)
  | ExtCsd => snd (ext_csd self)
  | GetBusWidth => self
  | SetBusWidth value => snd (set_bus_width value self)
  | WriteBlock data block_num => snd (write data block_num self)
  | ReadBlock block_num => snd (read block_num self)
  | Lock => snd (lock self)
  | Unlock => snd (unlock self)
  | SetPassword => snd (set_password self)
  | ClearPassword => snd (clear_password self)
  | FailToLock => snd (fail_to_lock self)
  | IsLock => snd (is_lock self)
  end.

Definition run_ops (ops : list op) (self : t D) : t D :=
  fold_left (fun s o => exec o s) ops self.

End Methods.

End MMC.

(** A client on a scripted transport whose calls are recorded. *)
Definition mock (answers : bytes) : MMC.t (Spy Script) :=
  MMC.__init__ (mkSpy (mkScript answers) []).

Definition block_AB : bytes := repeat xab 512.

(** The transport calls a client has made so far. *)
Definition sent {D : Type} (self : MMC.t (Spy D)) : list call :=
  calls (MMC._hydrabus self).

(** ** Predicates used in the statements *)

(** A method keeps the fields it never assigns: [_config], [_rf], [_mode]. *)
Definition keeps {D A : Type} (m : MMC.M D A) : Prop :=
  forall self,
    MMC._config (snd (m self)) = MMC._config self /\
    MMC._rf (snd (m self)) = MMC._rf self /\
    MMC._mode (snd (m self)) = MMC._mode self.

(** The configuration holds nothing but the width bit. *)
Definition config_ok {D : Type} (self : MMC.t D) : Prop :=
  MMC._config self = 0 \/ MMC._config self = 1.

(** A method writes to neither output channel. *)
Definition quiet {D A : Type} (m : MMC.M D A) : Prop :=
  forall self,
    MMC.logged (snd (m self)) = MMC.logged self /\
    MMC.printed (snd (m self)) = MMC.printed self.

(** The exception a result carries, if any. *)
Definition exn_of {A : Type} (r : exn + A) : option exn :=
  match r with
  | inl e => Some e
  | inr _ => None
  end.

(** The exception one public operation ends with, if any. *)
Definition raised {D : Type} `{Transport D} (o : MMC.op) (self : MMC.t D)
  : option exn :=
  match o with
  | MMC.Cid => exn_of (fst (MMC.cid self))
  | MMC.Csd => exn_of (fst (MMC.csd self))
  | MMC.ExtCsd => exn_of (fst (MMC.ext_csd self))
  | MMC.GetBusWidth => None
  | MMC.SetBusWidth value => exn_of (fst (MMC.set_bus_width value self))
  | MMC.WriteBlock data block_num => exn_of (fst (MMC.write data block_num self))
  | MMC.ReadBlock block_num => exn_of (fst (MMC.read block_num self))
  | MMC.Lock => exn_of (fst (MMC.lock self))
  | MMC.Unlock => exn_of (fst (MMC.unlock self))
  | MMC.SetPassword => exn_of (fst (MMC.set_password self))
  | MMC.ClearPassword => exn_of (fst (MMC.clear_password self))
  | MMC.FailToLock => exn_of (fst (MMC.fail_to_lock self))
  | MMC.IsLock => exn_of (fst (MMC.is_lock self))
  end.

(** The block number an operation carries, if any, fits in four bytes. *)
Definition block_num_ok (o : MMC.op) : Prop :=
  match o with
  | MMC.WriteBlock _ block_num | MMC.ReadBlock block_num =>
      0 <= block_num < 2 ^ 32
  | _ => True
  end.

(** The width the getter shows once [value] has been assigned to
    [bus_width] while it showed [current]. *)
Definition requested_width (current value : Z) : Z :=
  if value =? 1 then 1 else if value =? 4 then 4 else current.

(** ** Encoding lemmas *)

Lemma Z_of_byte_range (b : byte) : 0 <= Z_of_byte b < 256.
Proof.
  unfold Z_of_byte. pose proof (Byte.to_N_bounded b) as Hb. lia.
Qed.

Lemma Z_of_byte_of_Z (z : Z) : 0 <= z < 256 -> Z_of_byte (byte_of_Z z) = z.
Proof.
  intros Hz. unfold Z_of_byte, byte_of_Z.
  destruct (Byte.of_N (Z.to_N z)) as [b|] eqn:E.
  - apply Byte.to_of_N in E. rewrite E. lia.
  - apply Byte.of_N_None_iff in E. lia.
Qed.

Lemma byte_of_Z_of_byte (b : byte) : byte_of_Z (Z_of_byte b) = b.
Proof.
  unfold Z_of_byte, byte_of_Z. rewrite N2Z.id, Byte.of_to_N. reflexivity.
Qed.

Lemma Z_of_byte_inj (a b : byte) : Z_of_byte a = Z_of_byte b -> a = b.
Proof.
  intros E. rewrite <- (byte_of_Z_of_byte a), E. apply byte_of_Z_of_byte.
Qed.

Lemma length_le_digits (len : nat) (n : Z) : length (le_digits len n) = len.
Proof.
  revert n. induction len as [|k IH]; intros n; simpl; [reflexivity|].
  now rewrite IH.
Qed.

Lemma from_bytes_little_le_digits (len : nat) (n : Z) :
  0 <= n -> from_bytes_little (le_digits len n) = n mod 256 ^ Z.of_nat len.
Proof.
  revert n. induction len as [|k IH]; intros n Hn.
  - simpl. now rewrite Z.mod_1_r.
  - cbn [le_digits from_bytes_little].
    rewrite IH by (apply Z.div_pos; lia).
    rewrite Z_of_byte_of_Z by (apply Z.mod_pos_bound; lia).
    rewrite Nat2Z.inj_succ, Z.pow_succ_r by lia.
    rewrite Z.rem_mul_r by lia. reflexivity.
Qed.

(** What a successful [to_bytes] returns: [len] bytes whose big-endian
    reading is the number. *)
Lemma to_bytes_inr (n : Z) (len : nat) (bs : bytes) :
  to_bytes n len = inr bs ->
  length bs = len /\ from_bytes_big bs = n /\ 0 <= n < 256 ^ Z.of_nat len.
Proof.
  unfold to_bytes.
  destruct (Z.ltb_spec n 0) as [|Hn]; [discriminate|].
  destruct (Z.leb_spec (256 ^ Z.of_nat len) n) as [|Hlt]; [discriminate|].
  intros [= <-]. unfold from_bytes_big.
  rewrite length_rev, length_le_digits, rev_involutive.
  rewrite from_bytes_little_le_digits, Z.mod_small by lia. auto.
Qed.

(** [to_bytes] raises exactly outside the unsigned range. *)
Lemma to_bytes_inl (n : Z) (len : nat) :
  n < 0 \/ 256 ^ Z.of_nat len <= n -> exists e, to_bytes n len = inl e.
Proof.
  unfold to_bytes. intros Hn.
  destruct (Z.ltb_spec n 0); [eauto|].
  destruct (Z.leb_spec (256 ^ Z.of_nat len) n); [eauto|lia].
Qed.

Lemma to_bytes_1 (v : Z) : 0 <= v < 256 -> to_bytes v 1 = inr [byte_of_Z v].
Proof.
  intros Hv. unfold to_bytes.
  destruct (Z.ltb_spec v 0); [lia|].
  destruct (Z.leb_spec (256 ^ Z.of_nat 1) v) as [Hge|_].
  - change (256 ^ Z.of_nat 1) with 256 in Hge. lia.
  - cbn [le_digits rev app]. now rewrite Z.mod_small.
Qed.

Lemma to_bytes_4 (n : Z) : 0 <= n < 2 ^ 32 -> to_bytes n 4 = inr (be32 n).
Proof.
  intros Hn. unfold to_bytes.
  destruct (Z.ltb_spec n 0); [lia|].
  destruct (Z.leb_spec (256 ^ Z.of_nat 4) n) as [Hge|_].
  - change (256 ^ Z.of_nat 4) with (2 ^ 32) in Hge. lia.
  - cbn [le_digits rev app]. unfold be32.
    rewrite !Z.div_div by lia.
    change (256 * 256 * 256) with (2 ^ 24).
    change (256 * 256) with (2 ^ 16). change 256 with (2 ^ 8) at 5.
    reflexivity.
Qed.

Lemma from_bytes_big_be32 (n : Z) :
  0 <= n < 2 ^ 32 -> length (be32 n) = 4%nat /\ from_bytes_big (be32 n) = n.
Proof.
  intros Hn. pose proof (to_bytes_inr _ _ _ (to_bytes_4 n Hn)) as (Hl & Hv & _).
  auto.
Qed.

(** Reading a one-byte answer as an integer. *)
Lemma from_bytes_little_1 (b : byte) (v : Z) :
  0 <= v < 256 -> from_bytes_little [b] = v <-> b = byte_of_Z v.
Proof.
  intros Hv. cbn [from_bytes_little]. rewrite Z.mul_0_r, Z.add_0_r. split.
  - intros <-. symmetry. apply byte_of_Z_of_byte.
  - intros ->. now apply Z_of_byte_of_Z.
Qed.

Lemma status_ok_iff (b : byte) : from_bytes_little [b] = 1 <-> b = x01.
Proof. apply (from_bytes_little_1 b 1). lia. Qed.

(** ** Block transfers *)

Section BlockTransfers.
Context {D : Type} `{Transport D}.
Implicit Types (self : MMC.t (Spy D)) (data : bytes) (block_num : Z).

Local Ltac run :=
  unfold MMC.bind, MMC.lift, MMC.ret, MMC.hydrabus_write, MMC.hydrabus_read,
    MMC.set_hydrabus; cbn.

(** The run of [read] on a block number that fits in four bytes. *)
Lemma read_run self block_num :
  0 <= block_num < 2 ^ 32 ->
  MMC.read block_num self =
  let hb := MMC._hydrabus self in
  let r := hb_read 1 (hb_write (be32 block_num) (hb_write [x04] (inner hb))) in
  let sent := calls hb ++ [Write [x04]; Write (be32 block_num); Read 1%nat] in
  if from_bytes_little (fst r) =? 1 then
    let p := hb_read 512 (snd r) in
    (inr (fst p),
     MMC.set_hydrabus (mkSpy (snd p) (sent ++ [Read 512%nat])) self)
  else (inr [], MMC.set_hydrabus (mkSpy (snd r) sent) self).
Proof.
  intros Hn.
  unfold MMC.read. rewrite (to_bytes_1 4), (to_bytes_4 block_num) by lia.
  run. change (byte_of_Z 4) with x04.
  destruct (hb_read 1 _) as [s d1]. cbn [fst snd].
  destruct (from_bytes_little s =? 1); cbn.
  - destruct (hb_read 512 d1) as [p d2]. cbn. now rewrite <- !app_assoc.
  - now rewrite <- !app_assoc.
Qed.

(** The run of [write] on a block number that fits in four bytes. *)
Lemma write_run self data block_num :
  0 <= block_num < 2 ^ 32 ->
  MMC.write data block_num self =
  let hb := MMC._hydrabus self in
  let r :=
    hb_read 1
      (hb_write data (hb_write (be32 block_num) (hb_write [x05] (inner hb)))) in
  (inr (from_bytes_little (fst r) =? 1),
   MMC.set_hydrabus
     (mkSpy (snd r)
        (calls hb ++
         [Write [x05]; Write (be32 block_num); Write data; Read 1%nat]))
     self).
Proof.
  intros Hn.
  unfold MMC.write. rewrite (to_bytes_1 5), (to_bytes_4 block_num) by lia.
  run. change (byte_of_Z 5) with x05.
  destruct (hb_read 1 _) as [s d1]. cbn. now rewrite <- !app_assoc.
Qed.

(** C1 (as amended). For every block number with
    [0 <= block_num < 2 ** 32], [read(block_num)] writes the opcode byte
    0b00000100, then the four big-endian bytes of the block number, then
    reads one status byte.  When the status is 1 it reads 512 more bytes
    and returns them; otherwise it returns the empty byte string and makes
    no further call to the transport. *)
Theorem read_protocol self block_num :
  0 <= block_num < 2 ^ 32 ->
  let hb := MMC._hydrabus self in
  let r := hb_read 1 (hb_write (be32 block_num) (hb_write [x04] (inner hb))) in
  (from_bytes_little (fst r) = 1 ->
   let p := hb_read 512 (snd r) in
   MMC.read block_num self =
   (inr (fst p),
    MMC.set_hydrabus
      (mkSpy (snd p)
         (calls hb ++
          [Write [x04]; Write (be32 block_num); Read 1%nat; Read 512%nat]))
      self)) /\
  (from_bytes_little (fst r) <> 1 ->
   MMC.read block_num self =
   (inr [],
    MMC.set_hydrabus
      (mkSpy (snd r)
         (calls hb ++ [Write [x04]; Write (be32 block_num); Read 1%nat]))
      self)) /\
  (forall b, fst r = [b] -> (from_bytes_little (fst r) = 1 <-> b = x01)).
Proof.
  intros Hn hb r. rewrite (read_run self block_num Hn).
  change (hb_read 1 _) with r. fold hb.
  split; [|split].
  - intros Hs p. cbv zeta. rewrite Hs. fold p.
    change (1 =? 1) with true. cbv iota. now rewrite <- app_assoc.
  - intros Hs. cbv zeta.
    now destruct (Z.eqb_spec (from_bytes_little (fst r)) 1).
  - intros b ->. apply status_ok_iff.
Qed.

(** C5 (as amended). For every [data] and every block number with
    [0 <= block_num < 2 ** 32], [write(data, block_num)] makes three
    transport writes in order (the opcode byte 0b00000101, the four
    big-endian bytes of the block number, and [data] exactly as given,
    whatever its length), then reads one status byte and returns whether
    it is 1. *)
Theorem write_protocol self data block_num :
  0 <= block_num < 2 ^ 32 ->
  let hb := MMC._hydrabus self in
  let r :=
    hb_read 1
      (hb_write data (hb_write (be32 block_num) (hb_write [x05] (inner hb)))) in
  MMC.write data block_num self =
  (inr (from_bytes_little (fst r) =? 1),
   MMC.set_hydrabus
     (mkSpy (snd r)
        (calls hb ++
         [Write [x05]; Write (be32 block_num); Write data; Read 1%nat]))
     self) /\
  (forall b, fst r = [b] -> ((from_bytes_little (fst r) =? 1) = true <-> b = x01)).
Proof.
  intros Hn hb r. split.
  - exact (write_run self data block_num Hn).
  - intros b ->. rewrite Z.eqb_eq. apply status_ok_iff.
Qed.

(** C7 (as amended). For a block number in the unsigned 32-bit range
    neither [read] nor [write] fails, and both transmit its four
    big-endian bytes right after the opcode.  Outside that range
    [to_bytes(4)] raises [OverflowError]: the call fails locally, after the
    opcode byte has gone out and before anything else is sent. *)
Theorem block_num_range self data block_num :
  (0 <= block_num < 2 ^ 32 ->
   (exists v self',
      MMC.read block_num self = (inr v, self') /\
      firstn 2 (skipn (length (calls (MMC._hydrabus self)))
                  (calls (MMC._hydrabus self'))) =
      [Write [x04]; Write (be32 block_num)]) /\
   (exists v self',
      MMC.write data block_num self = (inr v, self') /\
      firstn 2 (skipn (length (calls (MMC._hydrabus self)))
                  (calls (MMC._hydrabus self'))) =
      [Write [x05]; Write (be32 block_num)])) /\
  (block_num < 0 \/ 2 ^ 32 <= block_num ->
   (exists e,
      MMC.read block_num self =
      (inl e, MMC.set_hydrabus (hb_write [x04] (MMC._hydrabus self)) self)) /\
   (exists e,
      MMC.write data block_num self =
      (inl e, MMC.set_hydrabus (hb_write [x05] (MMC._hydrabus self)) self))).
Proof.
  split.
  - intros Hn. split.
    + rewrite (read_run self block_num Hn). cbn zeta.
      destruct (from_bytes_little _ =? 1); eexists _, _;
        (split; [reflexivity|]); cbn;
        rewrite <- ?app_assoc; now rewrite drop_app_length.
    + rewrite (write_run self data block_num Hn). cbn zeta.
      eexists _, _. split; [reflexivity|].
      cbn. now rewrite drop_app_length.
  - intros Hn.
    destruct (to_bytes_inl block_num 4) as [e He].
    { change (256 ^ Z.of_nat 4) with (2 ^ 32). exact Hn. }
    split; exists e.
    + unfold MMC.read. rewrite (to_bytes_1 4), He by lia. now run.
    + unfold MMC.write. rewrite (to_bytes_1 5), He by lia. now run.
Qed.

End BlockTransfers.

(** ** Bit-level facts about the configuration byte *)

Lemma lor_byte (a b : Z) :
  0 <= a < 256 -> 0 <= b < 256 -> 0 <= Z.lor a b < 256.
Proof.
  intros Ha Hb. split; [apply Z.lor_nonneg; lia|].
  assert (Hlog : forall x, 0 <= x < 256 -> Z.log2 x < 8).
  { intros x Hx. destruct (Z.eq_dec x 0) as [->|]; [reflexivity|].
    apply Z.log2_lt_pow2; lia. }
  destruct (Z.eq_dec (Z.lor a b) 0) as [->|Hne]; [lia|].
  assert (0 <= Z.lor a b) by (apply Z.lor_nonneg; lia).
  change 256 with (2 ^ 8). apply Z.log2_lt_pow2; [lia|].
  rewrite Z.log2_lor by lia.
  pose proof (Hlog a Ha). pose proof (Hlog b Hb). lia.
Qed.

Lemma clear_bit0 (c : Z) : Z.land c (Z.lnot 1) = 2 * (c / 2).
Proof.
  rewrite <- Z.ldiff_land. change 1 with (Z.ones 1).
  rewrite Z.ldiff_ones_r by lia.
  rewrite Z.shiftr_div_pow2, Z.shiftl_mul_pow2 by lia.
  change (2 ^ 1) with 2. lia.
Qed.

Lemma clear_bit0_byte (c : Z) :
  0 <= c < 256 -> 0 <= Z.land c (Z.lnot 1) < 256.
Proof.
  intros Hc. rewrite clear_bit0.
  pose proof (Z.mul_div_le c 2). pose proof (Z.div_pos c 2). lia.
Qed.

Lemma testbit_1_high (i : Z) : 0 < i -> Z.testbit 1 i = false.
Proof.
  intros Hi. change 1 with (2 ^ 0). rewrite Z.pow2_bits_eqb by lia.
  apply Z.eqb_neq. lia.
Qed.

Lemma set_bit0_high (c i : Z) :
  0 < i -> Z.testbit (Z.lor c 1) i = Z.testbit c i.
Proof.
  intros Hi. rewrite Z.lor_spec, testbit_1_high by lia. apply orb_false_r.
Qed.

Lemma clear_bit0_high (c i : Z) :
  0 < i -> Z.testbit (Z.land c (Z.lnot 1)) i = Z.testbit c i.
Proof.
  intros Hi. rewrite Z.land_spec, Z.lnot_spec, testbit_1_high by lia.
  apply andb_true_r.
Qed.

Lemma set_bit0_low (c : Z) : Z.land (Z.lor c 1) 1 = 1.
Proof.
  rewrite Z.land_lor_distr_l. change (Z.land 1 1) with 1.
  change 1 with (Z.ones 1) at 1. rewrite Z.land_ones by lia.
  change (2 ^ 1) with 2. pose proof (Z.mod_pos_bound c 2).
  assert (Hc : c mod 2 = 0 \/ c mod 2 = 1) by lia.
  destruct Hc as [-> | ->]; reflexivity.
Qed.

Lemma clear_bit0_low (c : Z) : Z.land (Z.land c (Z.lnot 1)) 1 = 0.
Proof.
  rewrite <- Z.land_assoc. change (Z.land (Z.lnot 1) 1) with 0.
  apply Z.land_0_r.
Qed.

(** ** What the methods leave alone *)

Create HintDb keeps discriminated.

Section Frame.
Context {D : Type} `{Transport D}.
Implicit Types (self : MMC.t D) (value : Z).

Lemma keeps_ret {A} (a : A) : keeps (D:=D) (MMC.ret a).
Proof. now intros self. Qed.

Lemma keeps_lift {A} (r : exn + A) : keeps (D:=D) (MMC.lift r).
Proof. now intros self. Qed.

Lemma keeps_write (data : bytes) : keeps (MMC.hydrabus_write data).
Proof. now intros self. Qed.

Lemma keeps_read (n : nat) : keeps (MMC.hydrabus_read n).
Proof.
  intros self. unfold MMC.hydrabus_read.
  now destruct (hb_read n (MMC._hydrabus self)).
Qed.

Lemma keeps_print (msg : string) : keeps (D:=D) (MMC.print msg).
Proof. now intros self. Qed.

Lemma keeps_logger_error (msg : string) : keeps (D:=D) (MMC.logger_error msg).
Proof. now intros self. Qed.

Lemma keeps_get_config : keeps (D:=D) MMC.get_config.
Proof. now intros self. Qed.

Lemma keeps_bind {A B} (m : MMC.M D A) (k : A -> MMC.M D B) :
  keeps m -> (forall a, keeps (k a)) -> keeps (MMC.bind m k).
Proof.
  intros Hm Hk self. unfold MMC.bind.
  destruct (Hm self) as (Hc & Hr & Hmo).
  destruct (m self) as [[e|a] self1]; cbn in *; [easy|].
  destruct (Hk a self1) as (Hc' & Hr' & Hmo'). repeat split; congruence.
Qed.

Hint Resolve keeps_ret keeps_lift keeps_write keeps_read keeps_print
  keeps_logger_error keeps_get_config : keeps.

Ltac keeps_tac :=
  cbv zeta;
  repeat first
    [ apply keeps_bind; [|intros ?]
    | match goal with
      | |- keeps (if ?c then _ else _) => destruct c
      end
    | solve [auto with keeps] ].

Lemma keeps_configure_port : keeps MMC._configure_port.
Proof. unfold MMC._configure_port. keeps_tac. Qed.

Lemma keeps_cid : keeps MMC.cid.
Proof. unfold MMC.cid. keeps_tac. Qed.

Lemma keeps_csd : keeps MMC.csd.
Proof. unfold MMC.csd. keeps_tac. Qed.

Lemma keeps_ext_csd : keeps MMC.ext_csd.
Proof. unfold MMC.ext_csd. keeps_tac. Qed.

Lemma keeps_write_block data block_num : keeps (MMC.write data block_num).
Proof. unfold MMC.write. keeps_tac. Qed.

Lemma keeps_read_block block_num : keeps (MMC.read block_num).
Proof. unfold MMC.read. keeps_tac. Qed.

Lemma keeps_lock : keeps MMC.lock.
Proof. unfold MMC.lock. keeps_tac. Qed.

Lemma keeps_unlock : keeps MMC.unlock.
Proof. unfold MMC.unlock. keeps_tac. Qed.

Lemma keeps_set_password : keeps MMC.set_password.
Proof. unfold MMC.set_password. keeps_tac. Qed.

Lemma keeps_clear_password : keeps MMC.clear_password.
Proof. unfold MMC.clear_password. keeps_tac. Qed.

Lemma keeps_fail_to_lock : keeps MMC.fail_to_lock.
Proof. unfold MMC.fail_to_lock. keeps_tac. Qed.

Lemma keeps_is_lock : keeps MMC.is_lock.
Proof. unfold MMC.is_lock. keeps_tac. Qed.

(** [_configure_port] does not print. *)
Lemma configure_port_printed self :
  MMC.printed (snd (MMC._configure_port self)) = MMC.printed self.
Proof.
  unfold MMC._configure_port, MMC.bind, MMC.lift, MMC.ret, MMC.get_config,
    MMC.hydrabus_write, MMC.hydrabus_read, MMC.logger_error. cbn.
  destruct (to_bytes _ 1) as [e|b]; cbn; [easy|].
  destruct (hb_read 1 _) as [s d1].
  now destruct (bytes_eq_dec s [x01]).
Qed.

(** The setter is an update of [_config] (or a message) followed by one
    call of [_configure_port], whose result it drops. *)
Lemma set_bus_width_run self value :
  MMC.set_bus_width value self =
  let self1 :=
    if value =? 1 then
      MMC.set_config (Z.land (MMC._config self) (Z.lnot 1)) self
    else if value =? 4 then
      MMC.set_config (Z.lor (MMC._config self) 1) self
    else
      MMC.mk (MMC._rf self) (MMC._mode self) (MMC._config self)
        (MMC._hydrabus self) (MMC.logged self)
        (MMC.printed self ++ ["Invalid value (1 or 4)"%string]) in
  match MMC._configure_port self1 with
  | (inr _, self') => (inr tt, self')
  | (inl e, self') => (inl e, self')
  end.
Proof.
  unfold MMC.set_bus_width, MMC.bind, MMC.get_config, MMC.put_config,
    MMC.print, MMC.ret.
  destruct (value =? 1); [|destruct (value =? 4)]; cbv beta iota zeta;
    match goal with
    | |- context [MMC._configure_port ?x] =>
        destruct (MMC._configure_port x) as [[e|ok] s]
    end; reflexivity.
Qed.

(** The configuration the setter leaves behind. *)
Lemma set_bus_width_config self value :
  MMC._config (snd (MMC.set_bus_width value self)) =
  if value =? 1 then Z.land (MMC._config self) (Z.lnot 1)
  else if value =? 4 then Z.lor (MMC._config self) 1
  else MMC._config self.
Proof.
  rewrite set_bus_width_run. cbv zeta.
  match goal with
  | |- context [MMC._configure_port ?x] =>
      pose proof (keeps_configure_port x) as (Hc & _);
      destruct (MMC._configure_port x) as [[e|ok] s]
  end; cbn in *; rewrite Hc;
    now destruct (value =? 1); [|destruct (value =? 4)].
Qed.

End Frame.

(** ** Single-opcode commands *)

Section Commands.
Context {D : Type} `{Transport D}.
Implicit Types (self : MMC.t (Spy D)) (value : Z).

Local Ltac run :=
  unfold MMC.bind, MMC.lift, MMC.ret, MMC.hydrabus_write, MMC.hydrabus_read,
    MMC.get_config, MMC.put_config, MMC.print, MMC.logger_error,
    MMC.set_hydrabus, MMC.set_config; cbn.

(** The run of [_configure_port] when the configuration fits in a byte. *)
Lemma configure_port_run self :
  0 <= MMC._config self < 256 ->
  MMC._configure_port self =
  let hb := MMC._hydrabus self in
  let cmd := byte_of_Z (Z.lor 128 (MMC._config self)) in
  let r := hb_read 1 (hb_write [cmd] (inner hb)) in
  let hb' := mkSpy (snd r) (calls hb ++ [Write [cmd]; Read 1%nat]) in
  if bytes_eq_dec (fst r) [x01] then (inr true, MMC.set_hydrabus hb' self)
  else
    (inr false,
     MMC.mk (MMC._rf self) (MMC._mode self) (MMC._config self) hb'
       (MMC.logged self ++ ["Error setting config."%string])
       (MMC.printed self)).
Proof.
  intros Hc. unfold MMC._configure_port. run.
  rewrite to_bytes_1 by (apply lor_byte; lia).
  destruct (hb_read 1 _) as [s d1]. cbn.
  destruct (bytes_eq_dec s [x01]); cbn; now rewrite <- !app_assoc.
Qed.

Lemma register_query_run self (CMD : Z) (size : nat) :
  0 <= CMD < 256 ->
  MMC.bind (MMC.lift (to_bytes CMD 1)) (fun b =>
  MMC.bind (MMC.hydrabus_write b) (fun _ =>
  MMC.bind (MMC.hydrabus_read 1) (fun s =>
  MMC.hydrabus_read size))) self =
  let hb := MMC._hydrabus self in
  let r := hb_read 1 (hb_write [byte_of_Z CMD] (inner hb)) in
  let p := hb_read size (snd r) in
  (inr (fst p),
   MMC.set_hydrabus
     (mkSpy (snd p)
        (calls hb ++ [Write [byte_of_Z CMD]; Read 1%nat; Read size]))
     self).
Proof.
  intros HC. rewrite to_bytes_1 by lia. run.
  destruct (hb_read 1 _) as [s d1]. cbn.
  destruct (hb_read size d1) as [p d2]. cbn. now rewrite <- !app_assoc.
Qed.

Lemma status_command_run self (CMD : Z) :
  0 <= CMD < 256 ->
  MMC.bind (MMC.lift (to_bytes CMD 1)) (fun b =>
  MMC.bind (MMC.hydrabus_write b) (fun _ =>
  MMC.bind (MMC.hydrabus_read 1) (fun s =>
  MMC.ret (from_bytes_little s)))) self =
  let hb := MMC._hydrabus self in
  let r := hb_read 1 (hb_write [byte_of_Z CMD] (inner hb)) in
  (inr (from_bytes_little (fst r)),
   MMC.set_hydrabus
     (mkSpy (snd r) (calls hb ++ [Write [byte_of_Z CMD]; Read 1%nat])) self).
Proof.
  intros HC. rewrite to_bytes_1 by lia. run.
  destruct (hb_read 1 _) as [s d1]. cbn. now rewrite <- !app_assoc.
Qed.

End Commands.

Section CommandClaims.
Context {D : Type} `{Transport D}.
Implicit Types (self : MMC.t (Spy D)) (value : Z).

(** C3. With the configuration byte [c] in memory, [_configure_port]
    writes the single byte [0b1000_0000 | c] (0b1000_0001 for [c = 1],
    0b1000_0000 for [c = 0]) and reads one status byte.  It returns [True]
    exactly when the answer is the byte 0x01; otherwise it logs an error
    and returns [False].  In both cases [_config] stays as it was. *)
Theorem configure_port_protocol self :
  0 <= MMC._config self < 256 ->
  let c := MMC._config self in
  let hb := MMC._hydrabus self in
  let cmd := byte_of_Z (Z.lor 128 c) in
  let r := hb_read 1 (hb_write [cmd] (inner hb)) in
  let out := MMC._configure_port self in
  Z_of_byte cmd = Z.lor 128 c /\
  (c = 1 -> cmd = x81) /\
  (c = 0 -> cmd = x80) /\
  MMC._hydrabus (snd out) =
    mkSpy (snd r) (calls hb ++ [Write [cmd]; Read 1%nat]) /\
  (fst r = [x01] ->
   fst out = inr true /\ MMC.logged (snd out) = MMC.logged self) /\
  (fst r <> [x01] ->
   fst out = inr false /\
   MMC.logged (snd out) =
     MMC.logged self ++ ["Error setting config."%string]) /\
  MMC._config (snd out) = c /\
  MMC.printed (snd out) = MMC.printed self.
Proof.
  intros Hc c hb cmd r out. subst out.
  rewrite (configure_port_run self Hc). fold c hb cmd. cbv zeta. fold r.
  split; [apply Z_of_byte_of_Z; apply lor_byte; lia|].
  split; [intros E; subst cmd; now rewrite E|].
  split; [intros E; subst cmd; now rewrite E|].
  destruct (bytes_eq_dec (fst r) [x01]) as [E|E]; cbn; repeat split; easy.
Qed.

(** C2. Setting [bus_width] to 4 makes the getter return 4, setting it to
    1 makes it return 1, and any other value leaves [_config] (and the
    getter) as they were and prints the invalid-value message.  In all
    three cases the setter then runs [_configure_port] once on the
    resulting object: one write of the configuration command and one
    status read. *)
Theorem bus_width_setter self value :
  let out := MMC.set_bus_width value self in
  let self' := snd out in
  (value = 4 -> MMC.bus_width self' = 4) /\
  (value = 1 -> MMC.bus_width self' = 1) /\
  (value <> 1 -> value <> 4 ->
   MMC._config self' = MMC._config self /\
   MMC.bus_width self' = MMC.bus_width self /\
   MMC.printed self' =
     MMC.printed self ++ ["Invalid value (1 or 4)"%string]) /\
  (value = 1 \/ value = 4 -> MMC.printed self' = MMC.printed self) /\
  (exists self1,
     MMC._hydrabus self1 = MMC._hydrabus self /\
     MMC._config self1 = MMC._config self' /\
     self' = snd (MMC._configure_port self1)) /\
  (0 <= MMC._config self < 256 ->
   fst out = inr tt /\
   calls (MMC._hydrabus self') =
     calls (MMC._hydrabus self) ++
     [Write [byte_of_Z (Z.lor 128 (MMC._config self'))]; Read 1%nat]).
Proof.
  intros out self'. subst self' out. rewrite set_bus_width_run.
  set (self1 :=
    if value =? 1 then _ else if value =? 4 then _ else _). cbv zeta.
  assert (Hsnd :
    snd (match MMC._configure_port self1 with
         | (inr _, s) => (inr tt, s)
         | (inl e, s) => (inl e, s)
         end) = snd (MMC._configure_port self1)).
  { now destruct (MMC._configure_port self1) as [[e|ok] s]. }
  rewrite Hsnd.
  destruct (keeps_configure_port self1) as (Hcfg & _).
  pose proof (configure_port_printed self1) as Hpr.
  unfold MMC.bus_width. rewrite Hcfg, Hpr.
  assert (Hhb : MMC._hydrabus self1 = MMC._hydrabus self).
  { subst self1. now destruct (value =? 1); [|destruct (value =? 4)]. }
  split; [|split; [|split; [|split; [|split]]]].
  - intros ->. subst self1. cbn. now rewrite set_bit0_low.
  - intros ->. subst self1. cbn. now rewrite clear_bit0_low.
  - intros H1 H4. subst self1.
    destruct (Z.eqb_spec value 1); [easy|].
    destruct (Z.eqb_spec value 4); [easy|]. now cbn.
  - intros [-> | ->]; now subst self1.
  - now exists self1.
  - intros Hc.
    assert (Hc1 : 0 <= MMC._config self1 < 256).
    { subst self1. destruct (value =? 1); [|destruct (value =? 4)]; cbn.
      - now apply clear_bit0_byte.
      - apply lor_byte; lia.
      - exact Hc. }
    rewrite (configure_port_run self1 Hc1), Hhb. cbv zeta.
    destruct (bytes_eq_dec _ [x01]); cbn; easy.
Qed.

(** The run of [is_lock]. *)
Lemma is_lock_run self :
  MMC.is_lock self =
  let hb := MMC._hydrabus self in
  let r := hb_read 1 (hb_write [x0c] (inner hb)) in
  let status := from_bytes_little (fst r) in
  (inr (negb (Z.land status 240 =? 0)),
   MMC.mk (MMC._rf self) (MMC._mode self) (MMC._config self)
     (mkSpy (snd r) (calls hb ++ [Write [x0c]; Read 1%nat]))
     (MMC.logged self)
     (if Z.land status 15 =? 0 then MMC.printed self
      else MMC.printed self ++ ["CMD42 Error flag ON"%string])).
Proof.
  unfold MMC.is_lock. rewrite (to_bytes_1 12) by lia.
  unfold MMC.bind, MMC.lift, MMC.ret, MMC.hydrabus_write, MMC.hydrabus_read,
    MMC.print, MMC.set_hydrabus. cbn.
  change (byte_of_Z 12) with x0c.
  destruct (hb_read 1 _) as [s d1]. cbn. rewrite <- !app_assoc. cbn.
  destruct (Z.land (from_bytes_little s) 15 =? 0);
    destruct (Z.land (from_bytes_little s) 240 =? 0); reflexivity.
Qed.

(** C4. [is_lock] writes the opcode byte 0b00001100 and reads one status
    byte.  It returns [True] exactly when [status & 0xF0] is nonzero,
    whatever the low nibble holds; a nonzero [status & 0x0F] only adds the
    printed notice, and the call returns either way.  The status is the
    value of the byte that was read. *)
Theorem is_lock_protocol self :
  let hb := MMC._hydrabus self in
  let r := hb_read 1 (hb_write [x0c] (inner hb)) in
  let status := from_bytes_little (fst r) in
  MMC.is_lock self =
  (inr (negb (Z.land status 240 =? 0)),
   MMC.mk (MMC._rf self) (MMC._mode self) (MMC._config self)
     (mkSpy (snd r) (calls hb ++ [Write [x0c]; Read 1%nat]))
     (MMC.logged self)
     (if Z.land status 15 =? 0 then MMC.printed self
      else MMC.printed self ++ ["CMD42 Error flag ON"%string])) /\
  (forall b : byte,
     fst r = [b] ->
     let value := Z.of_N (Byte.to_N b) in
     status = value /\
     (fst (MMC.is_lock self) = inr true <-> Z.land value 240 <> 0) /\
     (fst (MMC.is_lock self) = inr false <-> Z.land value 240 = 0) /\
     (Z.land value 15 = 0 ->
      MMC.printed (snd (MMC.is_lock self)) = MMC.printed self) /\
     (Z.land value 15 <> 0 ->
      MMC.printed (snd (MMC.is_lock self)) =
        MMC.printed self ++ ["CMD42 Error flag ON"%string])).
Proof.
  intros hb r status. split; [apply is_lock_run|].
  intros b Hb value.
  assert (Hdec : from_bytes_little [b] = value).
  { subst value. cbn [from_bytes_little]. unfold Z_of_byte. lia. }
  pose proof (is_lock_run self) as Hrun. cbv zeta in Hrun.
  subst status r hb. cbv zeta in Hb. rewrite Hb, Hdec in *.
  rewrite Hrun. cbn [fst snd MMC.printed].
  split; [reflexivity|].
  destruct (Z.eqb_spec (Z.land value 240) 0) as [E240|E240];
    destruct (Z.eqb_spec (Z.land value 15) 0) as [E15|E15]; cbn [negb];
    repeat split; intros; try reflexivity; try discriminate;
    try contradiction; try assumption.
Qed.

(** C8. [lock], [unlock], [set_password], [clear_password] and
    [fail_to_lock] each write their one opcode byte (0b00000111,
    0b00001000, 0b00001001, 0b00001010, 0b00001011), read one status byte
    and return it as the integer it encodes: the value of that byte,
    between 0 and 255, not a boolean. *)
Theorem lock_commands self :
  let hb := MMC._hydrabus self in
  let answer (opcode : byte) := hb_read 1 (hb_write [opcode] (inner hb)) in
  let expect (opcode : byte) :=
    (inr (A:=exn) (from_bytes_little (fst (answer opcode))),
     MMC.set_hydrabus
       (mkSpy (snd (answer opcode))
          (calls hb ++ [Write [opcode]; Read 1%nat])) self) in
  (MMC.lock self = expect x07 /\
   MMC.unlock self = expect x08 /\
   MMC.set_password self = expect x09 /\
   MMC.clear_password self = expect x0a /\
   MMC.fail_to_lock self = expect x0b) /\
  (forall b : byte,
     from_bytes_little [b] = Z.of_N (Byte.to_N b) /\
     0 <= Z.of_N (Byte.to_N b) < 256) /\
  (forall b : byte,
     (fst (answer x07) = [b] ->
      fst (MMC.lock self) = inr (Z.of_N (Byte.to_N b))) /\
     (fst (answer x08) = [b] ->
      fst (MMC.unlock self) = inr (Z.of_N (Byte.to_N b))) /\
     (fst (answer x09) = [b] ->
      fst (MMC.set_password self) = inr (Z.of_N (Byte.to_N b))) /\
     (fst (answer x0a) = [b] ->
      fst (MMC.clear_password self) = inr (Z.of_N (Byte.to_N b))) /\
     (fst (answer x0b) = [b] ->
      fst (MMC.fail_to_lock self) = inr (Z.of_N (Byte.to_N b)))).
Proof.
  intros hb answer expect.
  assert (Hdec : forall b : byte,
            from_bytes_little [b] = Z.of_N (Byte.to_N b)).
  { intros b. cbn [from_bytes_little]. unfold Z_of_byte. lia. }
  assert (Hrun :
    MMC.lock self = expect x07 /\ MMC.unlock self = expect x08 /\
    MMC.set_password self = expect x09 /\
    MMC.clear_password self = expect x0a /\
    MMC.fail_to_lock self = expect x0b).
  { subst hb answer expect. cbv beta zeta.
    repeat split; refine (status_command_run self _ _); lia. }
  split; [exact Hrun|]. split.
  - intros b. split; [apply Hdec|]. apply (Z_of_byte_range b).
  - destruct Hrun as (H7 & H8 & H9 & Ha & Hb).
    intros b. rewrite H7, H8, H9, Ha, Hb. subst expect. cbv beta.
    cbn [fst].
    repeat split; intros ->; now rewrite Hdec.
Qed.

End CommandClaims.

(** C6. [cid], [csd] and [ext_csd] each write their opcode byte
    (0b00000010, 0b00000011, 0b00000110), read one status byte that plays
    no part in what follows, then read 16, 16 and 512 bytes and return
    them as they came.  On a scripted transport the answer is the payload
    that follows the status byte, whatever that byte is. *)
Theorem register_queries {D : Type} `{Transport D} (self : MMC.t (Spy D)) :
  let hb := MMC._hydrabus self in
  let expect (opcode : byte) (size : nat) :=
    let r := hb_read 1 (hb_write [opcode] (inner hb)) in
    let p := hb_read size (snd r) in
    (inr (A:=exn) (fst p),
     MMC.set_hydrabus
       (mkSpy (snd p) (calls hb ++ [Write [opcode]; Read 1%nat; Read size]))
       self) in
  (MMC.cid self = expect x02 16%nat /\
   MMC.csd self = expect x03 16%nat /\
   MMC.ext_csd self = expect x06 512%nat) /\
  (forall (status : byte) (payload rest : bytes),
     (length payload = 16%nat ->
      fst (MMC.cid (mock (status :: payload ++ rest))) = inr payload /\
      fst (MMC.csd (mock (status :: payload ++ rest))) = inr payload) /\
     (length payload = 512%nat ->
      fst (MMC.ext_csd (mock (status :: payload ++ rest))) = inr payload)).
Proof.
  intros hb expect. subst hb expect. cbv beta zeta. split.
  - repeat split; refine (register_query_run self _ _ _); lia.
  - assert (Hq : forall CMD size status payload rest,
      0 <= CMD < 256 -> length payload = size ->
      fst (MMC.bind (MMC.lift (to_bytes CMD 1)) (fun b =>
           MMC.bind (MMC.hydrabus_write b) (fun _ =>
           MMC.bind (MMC.hydrabus_read 1) (fun s =>
           MMC.hydrabus_read size)))
             (mock (status :: payload ++ rest))) = inr payload).
    { intros CMD size status payload rest HC Hlen.
      rewrite (register_query_run _ CMD size HC). cbv zeta.
      unfold mock, MMC.__init__, MMC._hydrabus, inner, hb_read, hb_write,
        Script_transport, rx, fst, snd.
      change (skipn 1 (status :: payload ++ rest)) with (payload ++ rest).
      f_equal. subst size. apply take_app_length. }
    intros status payload rest. split.
    + intros Hlen. split; refine (Hq _ _ status payload rest _ Hlen); lia.
    + intros Hlen. refine (Hq _ _ status payload rest _ Hlen); lia.
Qed.

(** ** The configuration invariant *)

Section Invariant.
Context {D : Type} `{Transport D}.
Implicit Types (self : MMC.t D) (o : MMC.op) (ops : list MMC.op).

Lemma exec_keeps_config o self :
  (forall value, o <> MMC.SetBusWidth value) ->
  MMC._config (MMC.exec o self) = MMC._config self.
Proof.
  intros Ho. destruct o; cbn [MMC.exec]; try reflexivity.
  - apply keeps_cid.
  - apply keeps_csd.
  - apply keeps_ext_csd.
  - now destruct (Ho value).
  - apply keeps_write_block.
  - apply keeps_read_block.
  - apply keeps_lock.
  - apply keeps_unlock.
  - apply keeps_set_password.
  - apply keeps_clear_password.
  - apply keeps_fail_to_lock.
  - apply keeps_is_lock.
Qed.

Lemma exec_config_ok o self : config_ok self -> config_ok (MMC.exec o self).
Proof.
  intros Hok. destruct o;
    try (unfold config_ok; rewrite exec_keeps_config by easy; exact Hok).
  unfold config_ok. cbn [MMC.exec]. rewrite set_bus_width_config.
  destruct (value =? 1); [|destruct (value =? 4)]; [| |exact Hok];
    destruct Hok as [-> | ->]; cbn; auto.
Qed.

Lemma run_ops_config_ok ops self :
  config_ok self -> config_ok (MMC.run_ops ops self).
Proof.
  revert self. induction ops as [|o ops IH]; intros self Hok; [exact Hok|].
  cbn. apply IH. now apply exec_config_ok.
Qed.

(** C10. A fresh client holds configuration 0, so [bus_width] reads 1.
    Of the public operations only the [bus_width] setter changes
    [_config], and it changes nothing but bit 0.  Hence after any sequence
    of public operations [_config] is 0 or 1 and [bus_width] is 1 or 4. *)
Theorem config_invariant (hb : D) :
  (MMC._config (MMC.__init__ hb) = 0 /\
   MMC.bus_width (MMC.__init__ hb) = 1) /\
  (forall o self,
     (forall value, o <> MMC.SetBusWidth value) ->
     MMC._config (MMC.exec o self) = MMC._config self) /\
  (forall value self i,
     0 < i ->
     Z.testbit (MMC._config (MMC.exec (MMC.SetBusWidth value) self)) i =
     Z.testbit (MMC._config self) i) /\
  (forall ops,
     let self := MMC.run_ops ops (MMC.__init__ hb) in
     (MMC._config self = 0 \/ MMC._config self = 1) /\
     (MMC.bus_width self = 1 \/ MMC.bus_width self = 4)).
Proof.
  split; [now split|]. split; [exact exec_keeps_config|]. split.
  - intros value self i Hi. cbn [MMC.exec]. rewrite set_bus_width_config.
    destruct (value =? 1); [|destruct (value =? 4)].
    + now apply clear_bit0_high.
    + now apply set_bit0_high.
    + reflexivity.
  - intros ops self.
    assert (Hok : config_ok self).
    { apply run_ops_config_ok. now left. }
    split; [exact Hok|]. unfold MMC.bus_width.
    destruct Hok as [-> | ->]; cbn; auto.
Qed.

End Invariant.

(** ** Write then read against the echoing device *)

(** C9. On the device that stores each written payload under its block
    number, acknowledges with status 1 and answers a read with status 1
    and the stored block: for a block number in range and 512 bytes of
    data, [write(data, n)] succeeds and the following [read(n)] returns
    exactly [data]. *)
Theorem write_then_read (self : MMC.t Echo.t) (data : bytes) (n : Z) :
  Echo.state (MMC._hydrabus self) = Echo.Idle ->
  Echo.tx (MMC._hydrabus self) = [] ->
  0 <= n < 2 ^ 32 ->
  length data = 512%nat ->
  exists self1 self2,
    MMC.write data n self = (inr true, self1) /\
    Echo.store (MMC._hydrabus self1) !! n = Some data /\
    MMC.read n self1 = (inr data, self2).
Proof.
  intros Hidle Htx Hn Hlen.
  destruct (from_bytes_big_be32 n Hn) as (_ & Hbe).
  destruct self as [rf mode cfg [st ph tx] lg pr]. cbn in Hidle, Htx. subst ph tx.
  unfold MMC.write, MMC.read.
  rewrite (to_bytes_1 5), (to_bytes_1 4), (to_bytes_4 n) by lia.
  unfold MMC.bind, MMC.lift, MMC.ret, MMC.hydrabus_write, MMC.hydrabus_read,
    MMC.set_hydrabus, MMC._hydrabus, MMC._rf, MMC._mode, MMC._config,
    MMC.logged, MMC.printed.
  cbn [hb_write hb_read Echo_transport].
  change (byte_of_Z 5) with x05. change (byte_of_Z 4) with x04.
  unfold Echo.receive at 3. cbn [Echo.state Echo.store Echo.tx].
  destruct (bytes_eq_dec [x05] [x05]) as [_|Hne]; [|now destruct Hne].
  unfold Echo.receive at 2. cbn [Echo.state Echo.store Echo.tx].
  unfold Echo.receive at 1. cbn [Echo.state Echo.store Echo.tx].
  rewrite Hbe. unfold Echo.send at 1. cbn [Echo.state Echo.store Echo.tx].
  cbn [app firstn skipn from_bytes_little].
  change (Z_of_byte x01 + 256 * 0 =? 1) with true.
  eexists _, _. split; [reflexivity|]. split; [apply lookup_insert_eq|].
  cbn [hb_write hb_read Echo_transport].
  unfold Echo.receive at 2. cbn [Echo.state Echo.store Echo.tx].
  destruct (bytes_eq_dec [x04] [x05]) as [Heq|_]; [discriminate Heq|].
  destruct (bytes_eq_dec [x04] [x04]) as [_|Hne]; [|now destruct Hne].
  unfold Echo.receive at 1. cbn [Echo.state Echo.store Echo.tx].
  rewrite Hbe, lookup_insert_eq.
  unfold Echo.send. cbn [Echo.state Echo.store Echo.tx].
  cbn [app]. change (firstn 1 (x01 :: data)) with [x01].
  change (skipn 1 (x01 :: data)) with data.
  cbn [from_bytes_little].
  change (Z_of_byte x01 + 256 * 0 =? 1) with true. cbv iota.
  cbv beta iota. cbn [Echo.state Echo.store Echo.tx].
  rewrite firstn_all2 by lia. reflexivity.
Qed.

(** ** The theorems at concrete inputs *)

Lemma read_protocol_witness :
  0 <= 7 < 2 ^ 32 /\
  MMC.read 7 (mock (x01 :: block_AB)) =
  (inr block_AB,
   MMC.set_hydrabus
     (mkSpy (mkScript [])
        [Write [x04]; Write [x00; x00; x00; x07]; Read 1%nat; Read 512%nat])
     (mock (x01 :: block_AB))) /\
  MMC.read 7 (mock [x00]) =
  (inr [],
   MMC.set_hydrabus
     (mkSpy (mkScript []) [Write [x04]; Write [x00; x00; x00; x07]; Read 1%nat])
     (mock [x00])).
Proof.
  split; [lia|]. split.
  - destruct (read_protocol (mock (x01 :: block_AB)) 7 ltac:(lia))
      as (Hok & _ & _).
    exact (Hok eq_refl).
  - destruct (read_protocol (mock [x00]) 7 ltac:(lia)) as (_ & Hbad & _).
    apply Hbad. discriminate.
Defined.

Lemma write_protocol_witness :
  0 <= 7 < 2 ^ 32 /\
  MMC.write [x41; x42] 7 (mock [x01]) =
  (inr true,
   MMC.set_hydrabus
     (mkSpy (mkScript [])
        [Write [x05]; Write [x00; x00; x00; x07]; Write [x41; x42];
         Read 1%nat])
     (mock [x01])).
Proof.
  split; [lia|].
  destruct (write_protocol (mock [x01]) [x41; x42] 7 ltac:(lia)) as (Hw & _).
  exact Hw.
Defined.

Lemma block_num_range_witness :
  (0 <= 7 < 2 ^ 32 /\
   exists v self', MMC.read 7 (mock [x00]) = (inr v, self')) /\
  (2 ^ 32 <= 2 ^ 32 /\
   exists e, fst (MMC.read (2 ^ 32) (mock [x00])) = inl e).
Proof.
  destruct (block_num_range (mock [x00]) [] 7) as (Hin & _).
  destruct (block_num_range (mock [x00]) [] (2 ^ 32)) as (_ & Hout).
  split.
  - split; [lia|].
    destruct (Hin ltac:(lia)) as ((v & self' & Hr & _) & _). now exists v, self'.
  - split; [lia|].
    destruct (Hout (or_intror (Z.le_refl _))) as ((e & Hr) & _).
    exists e. now rewrite Hr.
Defined.

(** C7, as stated, fails: a block number that does not fit in four bytes
    makes [read] raise once the opcode byte has been written, and a
    negative one does the same to [write]. *)
Lemma block_num_out_of_range_raises :
  MMC.read (2 ^ 32) (mock [x01]) =
  (inl (OverflowError "int too big to convert"),
   MMC.set_hydrabus (mkSpy (mkScript [x01]) [Write [x04]]) (mock [x01])) /\
  MMC.write block_AB (-1) (mock [x01]) =
  (inl (OverflowError "can't convert negative int to unsigned"),
   MMC.set_hydrabus (mkSpy (mkScript [x01]) [Write [x05]]) (mock [x01])).
Proof. split; reflexivity. Qed.

(** C1, as stated for every block number, fails: when the number does
    not fit in four unsigned bytes, [read] writes the opcode byte and then
    raises; no address is sent and no status byte is read. *)
Lemma read_raises_outside_four_bytes :
  MMC.read (2 ^ 32) (mock (x01 :: block_AB)) =
  (inl (OverflowError "int too big to convert"),
   MMC.set_hydrabus (mkSpy (mkScript (x01 :: block_AB)) [Write [x04]])
     (mock (x01 :: block_AB))) /\
  MMC.read (-1) (mock (x01 :: block_AB)) =
  (inl (OverflowError "can't convert negative int to unsigned"),
   MMC.set_hydrabus (mkSpy (mkScript (x01 :: block_AB)) [Write [x04]])
     (mock (x01 :: block_AB))).
Proof. split; reflexivity. Qed.

(** C5, as stated for every block number, fails: when the number does
    not fit in four unsigned bytes, [write] writes the opcode byte and
    then raises; neither the address nor the data is sent and no status
    byte is read. *)
Lemma write_raises_outside_four_bytes :
  MMC.write [x41; x42] (-1) (mock [x01]) =
  (inl (OverflowError "can't convert negative int to unsigned"),
   MMC.set_hydrabus (mkSpy (mkScript [x01]) [Write [x05]]) (mock [x01])) /\
  MMC.write [x41; x42] (2 ^ 32) (mock [x01]) =
  (inl (OverflowError "int too big to convert"),
   MMC.set_hydrabus (mkSpy (mkScript [x01]) [Write [x05]]) (mock [x01])).
Proof. split; reflexivity. Qed.

Lemma is_lock_protocol_witness :
  MMC.is_lock (mock [xf3]) =
  (inr true,
   MMC.mk 0 0 0 (mkSpy (mkScript []) [Write [x0c]; Read 1%nat]) []
     ["CMD42 Error flag ON"%string]) /\
  MMC.is_lock (mock [xf0]) =
  (inr true,
   MMC.mk 0 0 0 (mkSpy (mkScript []) [Write [x0c]; Read 1%nat]) [] []) /\
  MMC.is_lock (mock [x0f]) =
  (inr false,
   MMC.mk 0 0 0 (mkSpy (mkScript []) [Write [x0c]; Read 1%nat]) []
     ["CMD42 Error flag ON"%string]) /\
  MMC.is_lock (mock [x00]) =
  (inr false,
   MMC.mk 0 0 0 (mkSpy (mkScript []) [Write [x0c]; Read 1%nat]) [] []) /\
  (fst (hb_read 1 (hb_write [x0c] (mkScript [x10; x01]))) = [x10] /\
   Z.land (Z.of_N (Byte.to_N x10)) 240 <> 0 /\
   Z.land (Z.of_N (Byte.to_N x10)) 15 = 0 /\
   fst (MMC.is_lock (mock [x10; x01])) = inr true /\
   MMC.printed (snd (MMC.is_lock (mock [x10; x01]))) = []).
Proof.
  destruct (is_lock_protocol (mock [xf3])) as (Hf3 & _).
  destruct (is_lock_protocol (mock [xf0])) as (Hf0 & _).
  destruct (is_lock_protocol (mock [x0f])) as (H0f & _).
  destruct (is_lock_protocol (mock [x00])) as (H00 & _).
  destruct (is_lock_protocol (mock [x10; x01])) as (_ & H10).
  destruct (H10 x10 eq_refl) as (_ & (_ & Htrue) & _ & Hquiet & _).
  assert (Hhi : Z.land (Z.of_N (Byte.to_N x10)) 240 <> 0) by discriminate.
  assert (Hlo : Z.land (Z.of_N (Byte.to_N x10)) 15 = 0) by reflexivity.
  split; [exact Hf3|]. split; [exact Hf0|]. split; [exact H0f|].
  split; [exact H00|].
  split; [reflexivity|]. split; [exact Hhi|]. split; [exact Hlo|].
  split; [exact (Htrue Hhi)|exact (Hquiet Hlo)].
Defined.

Lemma lock_commands_witness :
  MMC.lock (mock [xa5]) =
  (inr 165,
   MMC.mk 0 0 0 (mkSpy (mkScript []) [Write [x07]; Read 1%nat]) [] []) /\
  MMC.unlock (mock [x02]) =
  (inr 2,
   MMC.mk 0 0 0 (mkSpy (mkScript []) [Write [x08]; Read 1%nat]) [] []) /\
  MMC.set_password (mock [xff]) =
  (inr 255,
   MMC.mk 0 0 0 (mkSpy (mkScript []) [Write [x09]; Read 1%nat]) [] []) /\
  MMC.clear_password (mock [x01]) =
  (inr 1,
   MMC.mk 0 0 0 (mkSpy (mkScript []) [Write [x0a]; Read 1%nat]) [] []) /\
  MMC.fail_to_lock (mock [x80; x07]) =
  (inr 128,
   MMC.mk 0 0 0 (mkSpy (mkScript [x07]) [Write [x0b]; Read 1%nat]) [] []) /\
  (fst (hb_read 1 (hb_write [x07] (mkScript [x2a]))) = [x2a] /\
   fst (MMC.lock (mock [x2a])) = inr 42).
Proof.
  destruct (lock_commands (mock [xa5])) as ((Hl & _) & _).
  destruct (lock_commands (mock [x02])) as ((_ & Hu & _) & _).
  destruct (lock_commands (mock [xff])) as ((_ & _ & Hs & _) & _).
  destruct (lock_commands (mock [x01])) as ((_ & _ & _ & Hc & _) & _).
  destruct (lock_commands (mock [x80; x07])) as ((_ & _ & _ & _ & Hf) & _).
  destruct (lock_commands (mock [x2a])) as (_ & _ & Hbyte).
  destruct (Hbyte x2a) as (H2a & _).
  split; [exact Hl|]. split; [exact Hu|]. split; [exact Hs|].
  split; [exact Hc|]. split; [exact Hf|].
  split; [reflexivity|exact (H2a eq_refl)].
Defined.

Lemma configure_port_protocol_witness :
  0 <= MMC._config (mock [x01]) < 256 /\
  sent (snd (MMC._configure_port (mock [x01]))) = [Write [x80]; Read 1%nat] /\
  fst (MMC._configure_port (mock [x01])) = inr true /\
  fst (MMC._configure_port (mock [x00])) = inr false.
Proof.
  assert (Hc : forall a, 0 <= MMC._config (mock a) < 256)
    by (intros a; vm_compute; split; [discriminate|reflexivity]).
  split; [apply Hc|].
  destruct (configure_port_protocol (mock [x01]) (Hc _))
    as (_ & _ & _ & Hhb & Hok & _).
  destruct (configure_port_protocol (mock [x00]) (Hc _))
    as (_ & _ & _ & _ & _ & Hbad & _).
  split; [unfold sent; now rewrite Hhb|].
  split; [apply Hok; reflexivity|apply Hbad; discriminate].
Defined.

Lemma bus_width_setter_witness :
  MMC.bus_width (snd (MMC.set_bus_width 4 (mock [x01]))) = 4 /\
  MMC.bus_width (snd (MMC.set_bus_width 1 (mock [x01]))) = 1 /\
  MMC.bus_width (snd (MMC.set_bus_width 8 (mock [x01]))) = 1 /\
  sent (snd (MMC.set_bus_width 4 (mock [x01]))) = [Write [x81]; Read 1%nat] /\
  sent (snd (MMC.set_bus_width 8 (mock [x01]))) = [Write [x80]; Read 1%nat].
Proof.
  destruct (bus_width_setter (mock [x01]) 4) as (H4 & _ & _ & _ & _ & Hs4).
  destruct (bus_width_setter (mock [x01]) 1) as (_ & H1 & _).
  destruct (bus_width_setter (mock [x01]) 8) as (_ & _ & H8 & _ & _ & Hs8).
  split; [apply H4; reflexivity|]. split; [apply H1; reflexivity|].
  split; [apply H8; discriminate|].
  split.
  - destruct Hs4 as (_ & Hs4); [vm_compute; split; [discriminate|reflexivity]|]. exact Hs4.
  - destruct Hs8 as (_ & Hs8); [vm_compute; split; [discriminate|reflexivity]|]. exact Hs8.
Defined.

Lemma register_queries_witness :
  length (repeat xab 16) = 16%nat /\
  length block_AB = 512%nat /\
  fst (MMC.cid (mock (x00 :: repeat xab 16 ++ [xff]))) = inr (repeat xab 16) /\
  fst (MMC.csd (mock (x01 :: repeat xab 16 ++ [xff]))) = inr (repeat xab 16) /\
  fst (MMC.ext_csd (mock (xee :: block_AB ++ [xff]))) = inr block_AB.
Proof.
  split; [reflexivity|]. split; [reflexivity|].
  destruct (register_queries (mock [])) as (_ & Hq).
  split; [|split].
  - destruct (Hq x00 (repeat xab 16) [xff]) as (H16 & _).
    destruct (H16 eq_refl) as (Hcid & _). exact Hcid.
  - destruct (Hq x01 (repeat xab 16) [xff]) as (H16 & _).
    destruct (H16 eq_refl) as (_ & Hcsd). exact Hcsd.
  - destruct (Hq xee block_AB [xff]) as (_ & H512). exact (H512 eq_refl).
Defined.

Lemma write_then_read_witness :
  let self := MMC.__init__ (Echo.mk ∅ Echo.Idle []) in
  Echo.state (MMC._hydrabus self) = Echo.Idle /\
  Echo.tx (MMC._hydrabus self) = [] /\
  0 <= 7 < 2 ^ 32 /\
  length block_AB = 512%nat /\
  exists self1 self2,
    MMC.write block_AB 7 self = (inr true, self1) /\
    MMC.read 7 self1 = (inr block_AB, self2).
Proof.
  intros self.
  split; [reflexivity|]. split; [reflexivity|]. split; [lia|].
  split; [reflexivity|].
  destruct (write_then_read self block_AB 7 eq_refl eq_refl ltac:(lia) eq_refl)
    as (self1 & self2 & Hw & _ & Hr).
  now exists self1, self2.
Defined.

Lemma config_invariant_witness :
  (forall value, MMC.Cid <> MMC.SetBusWidth value) /\
  0 < 3 /\
  MMC._config (MMC.exec MMC.Cid (mock [x00])) = MMC._config (mock [x00]) /\
  Z.testbit (MMC._config (MMC.exec (MMC.SetBusWidth 4) (mock [x01]))) 3 =
  Z.testbit (MMC._config (mock [x01])) 3 /\
  MMC.bus_width
    (MMC.run_ops [MMC.SetBusWidth 4; MMC.ReadBlock 0; MMC.SetBusWidth 9]
       (mock [x01; x00; x01])) = 4.
Proof.
  destruct (config_invariant (mkSpy (mkScript [x00]) []))
    as (_ & Hkeep & _ & _).
  destruct (config_invariant (mkSpy (mkScript [x01]) []))
    as (_ & _ & Hbit & _).
  destruct (config_invariant (mkSpy (mkScript [x01; x00; x01]) []))
    as (_ & _ & _ & Hinv).
  split; [discriminate|]. split; [lia|].
  split; [apply Hkeep; discriminate|]. split; [apply Hbit; lia|].
  destruct (Hinv [MMC.SetBusWidth 4; MMC.ReadBlock 0; MMC.SetBusWidth 9])
    as (_ & [Hw | Hw]); [discriminate Hw|exact Hw].
Defined.

(** ** Runs on the scripted transport *)

Example is_lock_locked_with_error_flag :
  MMC.is_lock (mock [xf3]) =
  (inr true,
   MMC.mk 0 0 0 (mkSpy (mkScript []) [Write [x0c]; Read 1%nat]) []
     ["CMD42 Error flag ON"%string]).
Proof. reflexivity. Qed.

Example is_lock_unlocked_with_error_flag :
  MMC.is_lock (mock [x0f]) =
  (inr false,
   MMC.mk 0 0 0 (mkSpy (mkScript []) [Write [x0c]; Read 1%nat]) []
     ["CMD42 Error flag ON"%string]).
Proof. reflexivity. Qed.

Example is_lock_unlocked_clean :
  MMC.is_lock (mock [x00]) =
  (inr false,
   MMC.mk 0 0 0 (mkSpy (mkScript []) [Write [x0c]; Read 1%nat]) [] []).
Proof. reflexivity. Qed.

Example lock_returns_raw_status :
  fst (MMC.lock (mock [xa5])) = inr 165 /\
  sent (snd (MMC.lock (mock [xa5]))) = [Write [x07]; Read 1%nat].
Proof. split; reflexivity. Qed.

Example configure_port_failure_is_logged :
  MMC._configure_port (mock [x00]) =
  (inr false,
   MMC.mk 0 0 0 (mkSpy (mkScript []) [Write [x80]; Read 1%nat])
     ["Error setting config."%string] []).
Proof. reflexivity. Qed.

Example bus_width_rejected_value :
  MMC.set_bus_width 8 (mock [x01]) =
  (inr tt,
   MMC.mk 0 0 0 (mkSpy (mkScript []) [Write [x80]; Read 1%nat]) []
     ["Invalid value (1 or 4)"%string]).
Proof. reflexivity. Qed.

(** ** Further properties of the handler *)

Create HintDb quiet discriminated.

Section Sequences.
Context {D : Type} `{Transport D}.
Implicit Types (self : MMC.t D) (o : MMC.op) (ops : list MMC.op) (value : Z).

(** *** The width after one and after many assignments *)

Lemma bus_width_after_set self value :
  MMC.bus_width (MMC.exec (MMC.SetBusWidth value) self) =
  requested_width (MMC.bus_width self) value.
Proof.
  unfold MMC.bus_width, requested_width. cbn [MMC.exec].
  rewrite set_bus_width_config.
  destruct (value =? 1); [|destruct (value =? 4)].
  - now rewrite clear_bit0_low.
  - now rewrite set_bit0_low.
  - reflexivity.
Qed.

(** X1. After any run of assignments to [bus_width] the getter shows the last
    assigned value that was 1 or 4, and what it showed before when there
    was none; rejected values in between change nothing. *)
Theorem bus_width_last_valid_wins (values : list Z) self :
  MMC.bus_width (MMC.run_ops (map MMC.SetBusWidth values) self) =
  fold_left requested_width values (MMC.bus_width self).
Proof.
  revert self. induction values as [|v values IH]; intros self; [reflexivity|].
  cbn [map fold_left MMC.run_ops]. unfold MMC.run_ops in IH. rewrite IH.
  now rewrite bus_width_after_set.
Qed.

(** *** Fields no method assigns *)

Lemma exec_keeps_rf_mode o self :
  MMC._rf (MMC.exec o self) = MMC._rf self /\
  MMC._mode (MMC.exec o self) = MMC._mode self.
Proof.
  destruct o; cbn [MMC.exec]; try (split; reflexivity).
  - apply keeps_cid.
  - apply keeps_csd.
  - apply keeps_ext_csd.
  - rewrite set_bus_width_run. cbv zeta.
    match goal with
    | |- context [MMC._configure_port ?x] =>
        destruct (keeps_configure_port x) as (_ & Hr & Hm);
        destruct (MMC._configure_port x) as [[e|ok] s]
    end; cbn in *; rewrite Hr, Hm;
      now destruct (value =? 1); [|destruct (value =? 4)].
  - apply keeps_write_block.
  - apply keeps_read_block.
  - apply keeps_lock.
  - apply keeps_unlock.
  - apply keeps_set_password.
  - apply keeps_clear_password.
  - apply keeps_fail_to_lock.
  - apply keeps_is_lock.
Qed.

(** X2. [_rf] and [_mode], set to 0 by [__init__], are assigned by no method:
    they are still 0 after any sequence of public operations, also when
    operations of the sequence raised. *)
Theorem rf_and_mode_stay_zero (hb : D) ops :
  MMC._rf (MMC.run_ops ops (MMC.__init__ hb)) = 0 /\
  MMC._mode (MMC.run_ops ops (MMC.__init__ hb)) = 0.
Proof.
  assert (Hgen : forall self,
    MMC._rf (MMC.run_ops ops self) = MMC._rf self /\
    MMC._mode (MMC.run_ops ops self) = MMC._mode self).
  { induction ops as [|o ops IH]; intros self; [now split|].
    cbn [MMC.run_ops fold_left]. unfold MMC.run_ops in IH.
    destruct (IH (MMC.exec o self)) as (-> & ->). apply exec_keeps_rf_mode. }
  apply (Hgen (MMC.__init__ hb)).
Qed.

End Sequences.

Section Channels.
Context {D : Type} `{Transport D}.
Implicit Types (self : MMC.t D) (o : MMC.op) (ops : list MMC.op) (value : Z).

(** *** Who logs and who prints *)

Lemma quiet_ret {A} (a : A) : quiet (D:=D) (MMC.ret a).
Proof. now intros self. Qed.

Lemma quiet_lift {A} (r : exn + A) : quiet (D:=D) (MMC.lift r).
Proof. now intros self. Qed.

Lemma quiet_write (data : bytes) : quiet (MMC.hydrabus_write data).
Proof. now intros self. Qed.

Lemma quiet_read (n : nat) : quiet (MMC.hydrabus_read n).
Proof.
  intros self. unfold MMC.hydrabus_read.
  now destruct (hb_read n (MMC._hydrabus self)).
Qed.

Lemma quiet_bind {A B} (m : MMC.M D A) (k : A -> MMC.M D B) :
  quiet m -> (forall a, quiet (k a)) -> quiet (MMC.bind m k).
Proof.
  intros Hm Hk self. unfold MMC.bind.
  destruct (Hm self) as (Hl & Hp).
  destruct (m self) as [[e|a] self1]; cbn in *; [easy|].
  destruct (Hk a self1) as (Hl' & Hp'). split; congruence.
Qed.

Hint Resolve quiet_ret quiet_lift quiet_write quiet_read : quiet.

Ltac quiet_tac :=
  cbv zeta;
  repeat first
    [ apply quiet_bind; [|intros ?]
    | match goal with
      | |- quiet (if ?c then _ else _) => destruct c
      end
    | solve [auto with quiet] ].

Lemma quiet_cid : quiet MMC.cid.
Proof. unfold MMC.cid. quiet_tac. Qed.

Lemma quiet_csd : quiet MMC.csd.
Proof. unfold MMC.csd. quiet_tac. Qed.

Lemma quiet_ext_csd : quiet MMC.ext_csd.
Proof. unfold MMC.ext_csd. quiet_tac. Qed.

Lemma quiet_write_block data block_num : quiet (MMC.write data block_num).
Proof. unfold MMC.write. quiet_tac. Qed.

Lemma quiet_read_block block_num : quiet (MMC.read block_num).
Proof. unfold MMC.read. quiet_tac. Qed.

Lemma quiet_lock : quiet MMC.lock.
Proof. unfold MMC.lock. quiet_tac. Qed.

Lemma quiet_unlock : quiet MMC.unlock.
Proof. unfold MMC.unlock. quiet_tac. Qed.

Lemma quiet_set_password : quiet MMC.set_password.
Proof. unfold MMC.set_password. quiet_tac. Qed.

Lemma quiet_clear_password : quiet MMC.clear_password.
Proof. unfold MMC.clear_password. quiet_tac. Qed.

Lemma quiet_fail_to_lock : quiet MMC.fail_to_lock.
Proof. unfold MMC.fail_to_lock. quiet_tac. Qed.

Lemma is_lock_logged self :
  MMC.logged (snd (MMC.is_lock self)) = MMC.logged self.
Proof.
  unfold MMC.is_lock. rewrite (to_bytes_1 12) by lia.
  unfold MMC.bind, MMC.lift, MMC.ret, MMC.hydrabus_write, MMC.hydrabus_read,
    MMC.print, MMC.set_hydrabus. cbn.
  destruct (hb_read 1 _) as [s d1]. cbn.
  now destruct (Z.land (from_bytes_little s) 15 =? 0).
Qed.

(** X3. Only the [bus_width] setter writes to the logger, and only the setter
    and [is_lock] print.  Every other public operation leaves both
    channels as they were, whatever the device answered and also when the
    operation raised: a rejected [read] or [write] is not reported there. *)
Theorem only_setter_logs o self :
  (forall value, o <> MMC.SetBusWidth value) ->
  MMC.logged (MMC.exec o self) = MMC.logged self /\
  (o <> MMC.IsLock -> MMC.printed (MMC.exec o self) = MMC.printed self).
Proof.
  intros Ho. destruct o; cbn [MMC.exec]; try (split; reflexivity).
  - split; [|intros _]; apply quiet_cid.
  - split; [|intros _]; apply quiet_csd.
  - split; [|intros _]; apply quiet_ext_csd.
  - now destruct (Ho value).
  - split; [|intros _]; apply quiet_write_block.
  - split; [|intros _]; apply quiet_read_block.
  - split; [|intros _]; apply quiet_lock.
  - split; [|intros _]; apply quiet_unlock.
  - split; [|intros _]; apply quiet_set_password.
  - split; [|intros _]; apply quiet_clear_password.
  - split; [|intros _]; apply quiet_fail_to_lock.
  - split; [apply is_lock_logged|now intros Hne].
Qed.

(** *** Which operations can raise *)

Lemma configure_port_returns self :
  0 <= MMC._config self < 256 ->
  exists ok, fst (MMC._configure_port self) = inr ok.
Proof.
  intros Hc. unfold MMC._configure_port, MMC.bind, MMC.lift, MMC.ret,
    MMC.get_config, MMC.hydrabus_write, MMC.hydrabus_read, MMC.logger_error.
  cbv zeta. cbn [fst snd].
  rewrite to_bytes_1 by (apply lor_byte; lia).
  destruct (hb_read 1 _) as [s d1].
  destruct (bytes_eq_dec s [x01]); eauto.
Qed.

Lemma set_bus_width_returns self value :
  0 <= MMC._config self < 256 ->
  fst (MMC.set_bus_width value self) = inr tt.
Proof.
  intros Hc. rewrite set_bus_width_run. cbv zeta.
  match goal with
  | |- context [MMC._configure_port ?x] =>
      destruct (configure_port_returns x) as [ok Hok]
  end.
  - destruct (value =? 1); [|destruct (value =? 4)]; cbn.
    + now apply clear_bit0_byte.
    + apply lor_byte; lia.
    + exact Hc.
  - destruct (MMC._configure_port _) as [[e|ok'] s]; [discriminate Hok|].
    reflexivity.
Qed.

Lemma raised_none_if_byte_config o self :
  0 <= MMC._config self < 256 -> block_num_ok o -> raised o self = None.
Proof.
  intros Hc Hn.
  destruct o; cbn [raised block_num_ok] in *; try reflexivity;
    try (rewrite set_bus_width_returns by exact Hc; reflexivity);
    unfold MMC.cid, MMC.csd, MMC.ext_csd, MMC.write, MMC.read, MMC.lock,
      MMC.unlock, MMC.set_password, MMC.clear_password, MMC.fail_to_lock,
      MMC.is_lock;
    rewrite ?(to_bytes_4 _ Hn);
    unfold MMC.bind, MMC.lift, MMC.ret, MMC.hydrabus_write, MMC.hydrabus_read,
      MMC.print, MMC.set_hydrabus;
    cbv zeta; rewrite to_bytes_1 by lia;
    repeat match goal with
      | |- context [hb_read ?n ?d] => destruct (hb_read n d); cbv beta iota
      | |- context [if ?c then _ else _] => destruct c; cbv beta iota
      end; reflexivity.
Qed.

Lemma raised_some_if_out_of_range o self :
  ~ block_num_ok o -> exists e, raised o self = Some e.
Proof.
  intros Hn.
  destruct o; cbn [block_num_ok] in Hn; try (now destruct Hn);
    (destruct (to_bytes_inl block_num 4) as [e He];
     [change (256 ^ Z.of_nat 4) with (2 ^ 32); lia|]);
    exists e; cbn [raised]; unfold MMC.write, MMC.read;
    rewrite He; unfold MMC.bind, MMC.lift, MMC.hydrabus_write; cbv zeta;
    rewrite to_bytes_1 by lia; reflexivity.
Qed.

(** X4. From a fresh client, after any sequence of public operations, a
    public operation raises exactly when it is a [read] or [write] whose
    block number does not fit in four bytes.  The property accessors and
    the [bus_width] setter never raise, whatever the device answers. *)
Theorem raises_only_on_block_num (hb : D) ops o :
  raised o (MMC.run_ops ops (MMC.__init__ hb)) = None <-> block_num_ok o.
Proof.
  split.
  - intros Hnone.
    assert (Hdec : block_num_ok o \/ ~ block_num_ok o).
    { destruct o; cbn [block_num_ok]; auto; lia. }
    destruct Hdec as [Hok|Hbad]; [exact Hok|].
    destruct (raised_some_if_out_of_range o
                (MMC.run_ops ops (MMC.__init__ hb)) Hbad) as [e He].
    congruence.
  - intros Hn. apply raised_none_if_byte_config; [|exact Hn].
    destruct (run_ops_config_ok ops (MMC.__init__ hb)) as [-> | ->];
      [now left|lia|lia].
Qed.

End Channels.

Section Wire.
Context {D : Type} `{Transport D}.
Implicit Types (self : MMC.t (Spy D)) (data : bytes) (value : Z).

Local Ltac run :=
  unfold MMC.bind, MMC.lift, MMC.ret, MMC.hydrabus_write, MMC.hydrabus_read,
    MMC.get_config, MMC.put_config, MMC.print, MMC.logger_error,
    MMC.set_hydrabus, MMC.set_config; cbn.

(** *** A transport that hands back no status byte *)


(** *** The block number on the wire *)

(** X6. The second transport call of [read] and of [write] carries the block
    number as four bytes that decode, big-endian, to the number itself;
    so two block numbers that fit in four bytes and differ are never sent
    as the same bytes. *)
Theorem block_num_on_the_wire self data n m :
  0 <= n < 2 ^ 32 ->
  0 <= m < 2 ^ 32 ->
  let second (after : MMC.t (Spy D)) :=
    nth 1 (skipn (length (sent self)) (sent after)) (Read 0) in
  (exists bs,
     second (snd (MMC.read n self)) = Write bs /\
     second (snd (MMC.write data n self)) = Write bs /\
     length bs = 4%nat /\ from_bytes_big bs = n) /\
  (second (snd (MMC.read n self)) = second (snd (MMC.read m self)) -> n = m) /\
  (second (snd (MMC.write data n self)) =
   second (snd (MMC.write data m self)) -> n = m).
Proof.
  intros Hn Hm second.
  assert (Hr : forall k, 0 <= k < 2 ^ 32 ->
            second (snd (MMC.read k self)) = Write (be32 k)).
  { intros k Hk. subst second. cbv beta. rewrite (read_run self k Hk).
    cbv zeta. unfold sent.
    destruct (from_bytes_little _ =? 1); cbn [snd MMC.set_hydrabus
      MMC._hydrabus calls]; rewrite <- ?app_assoc, drop_app_length;
      reflexivity. }
  assert (Hw : forall k, 0 <= k < 2 ^ 32 ->
            second (snd (MMC.write data k self)) = Write (be32 k)).
  { intros k Hk. subst second. cbv beta. rewrite (write_run self data k Hk).
    cbv zeta. unfold sent.
    cbn [snd MMC.set_hydrabus MMC._hydrabus calls].
    rewrite drop_app_length. reflexivity. }
  assert (Hinj : Write (be32 n) = Write (be32 m) -> n = m).
  { intros Heq.
    pose proof (f_equal (fun c => match c with Write b => b | Read _ => [] end)
                  Heq) as E. cbv beta iota in E.
    transitivity (from_bytes_big (be32 n)).
    - symmetry. now apply from_bytes_big_be32.
    - rewrite E. now apply from_bytes_big_be32. }
  split; [|split].
  - exists (be32 n). destruct (from_bytes_big_be32 n Hn) as (Hl & Hv).
    rewrite Hr, Hw by exact Hn. auto.
  - rewrite !Hr by assumption. exact Hinj.
  - rewrite !Hw by assumption. exact Hinj.
Qed.

End Wire.

Section SetterOnTheWire.
Context {D : Type} `{Transport D}.
Implicit Types (value : Z).

(** The run of the setter when the configuration fits in a byte. *)
Lemma set_bus_width_spy_run (self : MMC.t (Spy D)) value :
  0 <= MMC._config self < 256 ->
  MMC.set_bus_width value self =
  let c := MMC._config self in
  let c1 :=
    if value =? 1 then Z.land c (Z.lnot 1)
    else if value =? 4 then Z.lor c 1 else c in
  let cmd := byte_of_Z (Z.lor 128 c1) in
  let r := hb_read 1 (hb_write [cmd] (inner (MMC._hydrabus self))) in
  (inr tt,
   MMC.mk (MMC._rf self) (MMC._mode self) c1
     (mkSpy (snd r) (sent self ++ [Write [cmd]; Read 1%nat]))
     (MMC.logged self ++
      (if bytes_eq_dec (fst r) [x01] then []
       else ["Error setting config."%string]))
     (MMC.printed self ++
      (if value =? 1 then [] else if value =? 4 then []
       else ["Invalid value (1 or 4)"%string]))).
Proof.
  intros Hc. rewrite set_bus_width_run. cbv zeta. unfold sent.
  destruct (value =? 1); [|destruct (value =? 4)].
  - rewrite configure_port_run by (now apply clear_bit0_byte). cbv zeta. cbn.
    destruct (bytes_eq_dec _ [x01]); cbn; now rewrite !app_nil_r.
  - rewrite configure_port_run by (cbn; apply lor_byte; lia). cbv zeta. cbn.
    destruct (bytes_eq_dec _ [x01]); cbn; now rewrite !app_nil_r.
  - rewrite configure_port_run by exact Hc. cbv zeta. cbn.
    destruct (bytes_eq_dec _ [x01]); cbn; now rewrite ?app_nil_r.
Qed.

(** X7. In every state a client can reach from [__init__], an assignment to
    [bus_width] returns normally and makes exactly two transport calls: a
    write of the one byte 0x81 or 0x80, matching the width the getter
    shows afterwards, and a one-byte read.  When the answer is not 0x01
    the only trace is the logged error: the getter still shows the
    requested width. *)
Theorem setter_sends_the_width_it_shows (hb : Spy D) (ops : list MMC.op) value :
  let self := MMC.run_ops ops (MMC.__init__ hb) in
  let out := MMC.set_bus_width value self in
  let cmd := if MMC.bus_width (snd out) =? 4 then x81 else x80 in
  let answer := fst (hb_read 1 (hb_write [cmd] (inner (MMC._hydrabus self)))) in
  fst out = inr tt /\
  sent (snd out) = sent self ++ [Write [cmd]; Read 1%nat] /\
  MMC.logged (snd out) =
    MMC.logged self ++
    (if bytes_eq_dec answer [x01] then []
     else ["Error setting config."%string]) /\
  MMC.bus_width (snd out) = requested_width (MMC.bus_width self) value.
Proof.
  intros self out cmd answer.
  assert (Hok : config_ok self) by (apply run_ops_config_ok; now left).
  clearbody self. subst answer cmd out.
  assert (Hb : 0 <= MMC._config self < 256) by (destruct Hok as [-> | ->]; lia).
  rewrite (set_bus_width_spy_run self value Hb). cbv zeta.
  unfold MMC.bus_width, requested_width, sent.
  cbn [fst snd MMC._config MMC._hydrabus MMC.logged calls].
  destruct (value =? 1); [|destruct (value =? 4)];
    destruct Hok as [-> | ->]; repeat split; reflexivity.
Qed.

End SetterOnTheWire.

(** *** Answers on the scripted transport *)

Lemma script_query_run (self : MMC.t (Spy Script)) (CMD : Z) (size : nat)
    (status : byte) (payload rest : bytes) :
  0 <= CMD < 256 ->
  rx (inner (MMC._hydrabus self)) = status :: payload ++ rest ->
  length payload = size ->
  MMC.bind (MMC.lift (to_bytes CMD 1)) (fun b =>
  MMC.bind (MMC.hydrabus_write b) (fun _ =>
  MMC.bind (MMC.hydrabus_read 1) (fun s =>
  MMC.hydrabus_read size))) self =
  (inr payload,
   MMC.set_hydrabus
     (mkSpy (mkScript rest)
        (sent self ++ [Write [byte_of_Z CMD]; Read 1%nat; Read size]))
     self).
Proof.
  intros HC Hrx Hlen. rewrite (register_query_run self CMD size HC).
  cbv zeta. cbn [hb_read hb_write Script_transport fst snd rx].
  rewrite Hrx. change (skipn 1 (status :: payload ++ rest)) with (payload ++ rest).
  rewrite take_app_length', drop_app_length' by congruence. reflexivity.
Qed.

(** X8. Each register query takes exactly its own answer off the transport:
    when the device has queued the answers to [cid], [csd] and [ext_csd]
    one after the other (a status byte and 16, 16 and 512 bytes), the
    three queries issued in that order return the three payloads,
    whatever the status bytes are, and leave the rest of the queue in
    place. *)
Theorem queries_consume_their_answers (self : MMC.t (Spy Script))
    (s1 s2 s3 : byte) (p1 p2 p3 rest : bytes) :
  rx (inner (MMC._hydrabus self)) =
    s1 :: p1 ++ s2 :: p2 ++ s3 :: p3 ++ rest ->
  length p1 = 16%nat -> length p2 = 16%nat -> length p3 = 512%nat ->
  let out1 := MMC.cid self in
  let out2 := MMC.csd (snd out1) in
  let out3 := MMC.ext_csd (snd out2) in
  fst out1 = inr p1 /\ fst out2 = inr p2 /\ fst out3 = inr p3 /\
  rx (inner (MMC._hydrabus (snd out3))) = rest /\
  sent (snd out3) =
    sent self ++
    [Write [x02]; Read 1%nat; Read 16%nat;
     Write [x03]; Read 1%nat; Read 16%nat;
     Write [x06]; Read 1%nat; Read 512%nat].
Proof.
  intros Hrx H1 H2 H3 out1 out2 out3. subst out3 out2 out1.
  unfold MMC.cid at 1 2 3 4 5. cbv zeta.
  rewrite (script_query_run self 2 16 s1 p1 (s2 :: p2 ++ s3 :: p3 ++ rest))
    by (lia || assumption).
  cbn [fst snd].
  unfold MMC.csd at 1 2 3 4. cbv zeta.
  rewrite (script_query_run _ 3 16 s2 p2 (s3 :: p3 ++ rest))
    by (lia || assumption || reflexivity).
  cbn [fst snd].
  unfold MMC.ext_csd. cbv zeta.
  rewrite (script_query_run _ 6 512 s3 p3 rest)
    by (lia || assumption || reflexivity).
  cbn [fst snd MMC.set_hydrabus MMC._hydrabus inner rx sent calls].
  repeat split; try reflexivity.
  now rewrite <- !app_assoc.
Qed.

(** X9. [read] takes what the transport hands back for the payload as it is:
    when fewer than 512 bytes follow a status 1, it returns those bytes
    without padding and without an error, so a success with no payload
    bytes gives the same empty result as a refusal.  When the status is
    not 1, the bytes behind it stay on the transport. *)
Theorem read_takes_the_payload_as_it_comes (self : MMC.t (Spy Script))
    (block_num : Z) (status : byte) (payload : bytes) :
  0 <= block_num < 2 ^ 32 ->
  rx (inner (MMC._hydrabus self)) = status :: payload ->
  (status = x01 -> (length payload <= 512)%nat ->
   fst (MMC.read block_num self) = inr payload /\
   rx (inner (MMC._hydrabus (snd (MMC.read block_num self)))) = []) /\
  (status <> x01 ->
   fst (MMC.read block_num self) = inr [] /\
   rx (inner (MMC._hydrabus (snd (MMC.read block_num self)))) = payload).
Proof.
  intros Hn Hrx. rewrite (read_run self block_num Hn). cbv zeta.
  cbn [hb_read hb_write Script_transport fst snd rx]. rewrite Hrx.
  change (firstn 1 (status :: payload)) with [status].
  change (skipn 1 (status :: payload)) with payload.
  split.
  - intros -> Hlen.
    change (from_bytes_little [x01] =? 1) with true. cbv iota.
    cbn [fst snd MMC.set_hydrabus MMC._hydrabus inner rx].
    rewrite firstn_all2, skipn_all2 by lia. now split.
  - intros Hs.
    destruct (Z.eqb_spec (from_bytes_little [status]) 1) as [E|_].
    + apply status_ok_iff in E. contradiction.
    + now split.
Qed.

(** *** Blocks on the echoing device *)

Lemma receive_write_opcode st tx :
  Echo.receive [x05] (Echo.mk st Echo.Idle tx) = Echo.mk st Echo.WriteAddr tx.
Proof.
  unfold Echo.receive. cbn [Echo.state Echo.store Echo.tx].
  now destruct (bytes_eq_dec [x05] [x05]).
Qed.

Lemma receive_read_opcode st tx :
  Echo.receive [x04] (Echo.mk st Echo.Idle tx) = Echo.mk st Echo.ReadAddr tx.
Proof.
  unfold Echo.receive. cbn [Echo.state Echo.store Echo.tx].
  destruct (bytes_eq_dec [x04] [x05]) as [E|_]; [discriminate E|].
  now destruct (bytes_eq_dec [x04] [x04]).
Qed.

(** A [write] to the idle device: acknowledged, stored, device idle again. *)
Lemma echo_write_run (self : MMC.t Echo.t) (data : bytes) (n : Z) :
  Echo.state (MMC._hydrabus self) = Echo.Idle ->
  Echo.tx (MMC._hydrabus self) = [] ->
  0 <= n < 2 ^ 32 ->
  MMC.write data n self =
  (inr true,
   MMC.set_hydrabus
     (Echo.mk (<[n := data]> (Echo.store (MMC._hydrabus self))) Echo.Idle [])
     self).
Proof.
  intros Hidle Htx Hn.
  destruct (from_bytes_big_be32 n Hn) as (_ & Hbe).
  destruct self as [rf mode cfg [st ph tx] lg pr].
  cbn in Hidle, Htx. subst ph tx.
  unfold MMC.write. rewrite (to_bytes_1 5), (to_bytes_4 n) by lia.
  unfold MMC.bind, MMC.lift, MMC.ret, MMC.hydrabus_write, MMC.hydrabus_read,
    MMC.set_hydrabus.
  cbn [MMC._hydrabus MMC._rf MMC._mode MMC._config MMC.logged MMC.printed
       hb_write hb_read Echo_transport].
  change (byte_of_Z 5) with x05. rewrite receive_write_opcode.
  unfold Echo.receive, Echo.send. cbn [Echo.state Echo.store Echo.tx].
  rewrite Hbe. reflexivity.
Qed.

(** A [read] from the idle device: the first 512 bytes of the stored
    block, or nothing when the block was never written. *)
Lemma echo_read_run (self : MMC.t Echo.t) (n : Z) :
  Echo.state (MMC._hydrabus self) = Echo.Idle ->
  Echo.tx (MMC._hydrabus self) = [] ->
  0 <= n < 2 ^ 32 ->
  MMC.read n self =
  let st := Echo.store (MMC._hydrabus self) in
  match st !! n with
  | Some block =>
      (inr (firstn 512 block),
       MMC.set_hydrabus (Echo.mk st Echo.Idle (skipn 512 block)) self)
  | None => (inr [], MMC.set_hydrabus (Echo.mk st Echo.Idle []) self)
  end.
Proof.
  intros Hidle Htx Hn.
  destruct (from_bytes_big_be32 n Hn) as (_ & Hbe).
  destruct self as [rf mode cfg [st ph tx] lg pr].
  cbn in Hidle, Htx. subst ph tx.
  unfold MMC.read. rewrite (to_bytes_1 4), (to_bytes_4 n) by lia.
  unfold MMC.bind, MMC.lift, MMC.ret, MMC.hydrabus_write, MMC.hydrabus_read,
    MMC.set_hydrabus.
  cbn [MMC._hydrabus MMC._rf MMC._mode MMC._config MMC.logged MMC.printed
       hb_write hb_read Echo_transport].
  change (byte_of_Z 4) with x04. rewrite receive_read_opcode.
  unfold Echo.receive. cbn [Echo.state Echo.store Echo.tx]. rewrite Hbe.
  cbv zeta. destruct (st !! n) as [block|]; unfold Echo.send;
    cbn [Echo.state Echo.store Echo.tx app];
    [change (firstn 1 (x01 :: block)) with [x01];
     change (skipn 1 (x01 :: block)) with block
    |change (firstn 1 [x00]) with [x00]; change (skipn 1 [x00]) with (@nil byte)];
    reflexivity.
Qed.

(** X10. On the echoing device, a [read] that follows a [write] behaves as a
    lookup in the updated store.  The written block comes back cut to its
    first 512 bytes; a later [write] to the same block replaces the
    earlier one; a [read] of another block returns what it returned
    before the [write]; a block never written reads as empty. *)
Theorem echo_read_after_write (self : MMC.t Echo.t) (old data : bytes) (n m : Z) :
  Echo.state (MMC._hydrabus self) = Echo.Idle ->
  Echo.tx (MMC._hydrabus self) = [] ->
  0 <= n < 2 ^ 32 ->
  0 <= m < 2 ^ 32 ->
  let after := snd (MMC.write data n self) in
  let twice := snd (MMC.write data n (snd (MMC.write old n self))) in
  fst (MMC.read n after) = inr (firstn 512 data) /\
  fst (MMC.read n twice) = inr (firstn 512 data) /\
  (m <> n -> fst (MMC.read m after) = fst (MMC.read m self)) /\
  (m <> n -> Echo.store (MMC._hydrabus self) !! m = None ->
   fst (MMC.read m after) = inr []).
Proof.
  intros Hidle Htx Hn Hm after twice. subst after twice.
  rewrite (echo_write_run self old n), !echo_write_run by auto.
  cbn [snd]. rewrite !echo_read_run by auto. cbv zeta.
  cbn [MMC.set_hydrabus MMC._hydrabus Echo.store].
  rewrite insert_insert_eq, lookup_insert_eq.
  split; [reflexivity|]. split; [reflexivity|].
  split.
  - intros Hne. rewrite lookup_insert_ne by congruence.
    now destruct (Echo.store (MMC._hydrabus self) !! m).
  - intros Hne Hnone. rewrite lookup_insert_ne by congruence.
    now rewrite Hnone.
Qed.

(** *** Transport calls per operation *)

Section CallBudget.
Context {D : Type} `{Transport D}.

Local Ltac run :=
  unfold MMC.bind, MMC.lift, MMC.ret, MMC.hydrabus_write, MMC.hydrabus_read,
    MMC.print, MMC.set_hydrabus; cbn.

Local Ltac framed :=
  unfold sent; run;
  repeat match goal with
    | |- context [hb_read ?n ?d] => destruct (hb_read n d); cbn
    | |- context [if ?c then _ else _] => destruct c; cbn
    end;
  rewrite <- ?app_assoc; cbn [app];
  eexists; (split; [reflexivity|]); (split; [cbn; lia|]);
  eexists _, _; (split; [reflexivity|]);
  (split; [unfold Z_of_byte; cbn; lia|intros [v Hv]; discriminate Hv]).

(** X11. In every state a client can reach from [__init__], a public operation
    only adds transport calls, at most four of them.  The [bus_width]
    getter adds none.  Every other operation starts with the write of a
    single byte, and that byte has its top bit set exactly for the
    [bus_width] setter: no opcode can be taken for a configuration
    command or the other way round. *)
Theorem transport_calls_of_an_operation (hb : Spy D) (ops : list MMC.op)
    (o : MMC.op) :
  let self := MMC.run_ops ops (MMC.__init__ hb) in
  exists new,
    sent (MMC.exec o self) = sent self ++ new /\
    (length new <= 4)%nat /\
    match o with
    | MMC.GetBusWidth => new = []
    | _ =>
        exists b rest,
          new = Write [b] :: rest /\
          (128 <= Z_of_byte b <-> exists value, o = MMC.SetBusWidth value)
    end.
Proof.
  intros self.
  assert (Hok : config_ok self) by (apply run_ops_config_ok; now left).
  clearbody self.
  destruct o; cbn [MMC.exec].
  - unfold MMC.cid. rewrite (to_bytes_1 2) by lia. framed.
  - unfold MMC.csd. rewrite (to_bytes_1 3) by lia. framed.
  - unfold MMC.ext_csd. rewrite (to_bytes_1 6) by lia. framed.
  - exists []. rewrite app_nil_r. repeat split. cbn. lia.
  - assert (Hb : 0 <= MMC._config self < 256)
      by (destruct Hok as [-> | ->]; lia).
    rewrite (set_bus_width_spy_run self value Hb). cbv zeta.
    unfold sent at 1. cbn [snd MMC._hydrabus calls].
    eexists. split; [reflexivity|]. split; [cbn; lia|].
    eexists _, _. split; [reflexivity|]. split; [eauto|intros _].
    destruct (value =? 1); [|destruct (value =? 4)];
      destruct Hok as [-> | ->]; vm_compute; discriminate.
  - unfold MMC.write. rewrite (to_bytes_1 5) by lia.
    destruct (to_bytes block_num 4) as [e|bn]; framed.
  - unfold MMC.read. rewrite (to_bytes_1 4) by lia.
    destruct (to_bytes block_num 4) as [e|bn]; framed.
  - unfold MMC.lock. rewrite (to_bytes_1 7) by lia. framed.
  - unfold MMC.unlock. rewrite (to_bytes_1 8) by lia. framed.
  - unfold MMC.set_password. rewrite (to_bytes_1 9) by lia. framed.
  - unfold MMC.clear_password. rewrite (to_bytes_1 10) by lia. framed.
  - unfold MMC.fail_to_lock. rewrite (to_bytes_1 11) by lia. framed.
  - unfold MMC.is_lock. rewrite (to_bytes_1 12) by lia. framed.
Qed.

End CallBudget.

(** *** The further properties at concrete inputs *)

Lemma only_setter_logs_witness :
  (forall value, MMC.ReadBlock 7 <> MMC.SetBusWidth value) /\
  MMC.ReadBlock 7 <> MMC.IsLock /\
  MMC.logged (MMC.exec (MMC.ReadBlock 7) (mock [x00])) = [] /\
  MMC.printed (MMC.exec (MMC.ReadBlock 7) (mock [x00])) = [].
Proof.
  split; [discriminate|]. split; [discriminate|].
  destruct (only_setter_logs (MMC.ReadBlock 7) (mock [x00])) as (Hl & Hp);
    [discriminate|].
  split; [exact Hl|]. apply Hp. discriminate.
Defined.

Lemma raises_only_on_block_num_witness :
  block_num_ok (MMC.ReadBlock 7) /\
  raised (MMC.ReadBlock 7)
    (MMC.run_ops [MMC.SetBusWidth 4; MMC.ReadBlock (-1)]
       (MMC.__init__ (mkScript [x00]))) = None.
Proof.
  assert (Hok : block_num_ok (MMC.ReadBlock 7)) by (cbn; lia).
  split; [exact Hok|].
  apply (raises_only_on_block_num (mkScript [x00])
           [MMC.SetBusWidth 4; MMC.ReadBlock (-1)] (MMC.ReadBlock 7)).
  exact Hok.
Defined.


Lemma block_num_on_the_wire_witness :
  0 <= 7 < 2 ^ 32 /\ 0 <= 263 < 2 ^ 32 /\
  exists bs,
    nth 1 (sent (snd (MMC.read 7 (mock [x00])))) (Read 0) = Write bs /\
    length bs = 4%nat /\ from_bytes_big bs = 7.
Proof.
  assert (Hn : 0 <= 7 < 2 ^ 32) by lia.
  assert (Hm : 0 <= 263 < 2 ^ 32) by lia.
  split; [exact Hn|]. split; [exact Hm|].
  destruct (block_num_on_the_wire (mock [x00]) [] 7 263 Hn Hm)
    as ((bs & Hr & _ & Hl & Hv) & _).
  exists bs. auto.
Defined.

Lemma queries_consume_their_answers_witness :
  let p := repeat xab 16 in
  let self := mock (x00 :: p ++ xff :: p ++ x01 :: block_AB ++ [x55]) in
  length p = 16%nat /\ length block_AB = 512%nat /\
  fst (MMC.cid self) = inr p /\
  rx (inner (MMC._hydrabus
       (snd (MMC.ext_csd (snd (MMC.csd (snd (MMC.cid self)))))))) = [x55].
Proof.
  intros p self.
  split; [reflexivity|]. split; [reflexivity|].
  destruct (queries_consume_their_answers self x00 xff x01 p p block_AB [x55]
              eq_refl eq_refl eq_refl eq_refl) as (H1 & _ & _ & Hrest & _).
  auto.
Defined.

Lemma read_takes_the_payload_as_it_comes_witness :
  0 <= 7 < 2 ^ 32 /\
  (length [x41; x42] <= 512)%nat /\
  fst (MMC.read 7 (mock [x01; x41; x42])) = inr [x41; x42] /\
  x00 <> x01 /\
  rx (inner (MMC._hydrabus (snd (MMC.read 7 (mock [x00; x41; x42]))))) =
    [x41; x42].
Proof.
  assert (Hn : 0 <= 7 < 2 ^ 32) by lia.
  assert (Hlen : (length [x41; x42] <= 512)%nat) by (cbn; lia).
  split; [exact Hn|]. split; [exact Hlen|].
  destruct (read_takes_the_payload_as_it_comes (mock [x01; x41; x42]) 7 x01
              [x41; x42] Hn eq_refl) as (Hok & _).
  destruct (read_takes_the_payload_as_it_comes (mock [x00; x41; x42]) 7 x00
              [x41; x42] Hn eq_refl) as (_ & Hbad).
  destruct (Hok eq_refl Hlen) as (Hr & _).
  split; [exact Hr|]. split; [discriminate|].
  destruct Hbad as (_ & Hrx); [discriminate|]. exact Hrx.
Defined.

Lemma echo_read_after_write_witness :
  let self := MMC.__init__ (Echo.mk ∅ Echo.Idle []) in
  Echo.state (MMC._hydrabus self) = Echo.Idle /\
  Echo.tx (MMC._hydrabus self) = [] /\
  0 <= 7 < 2 ^ 32 /\ 0 <= 8 < 2 ^ 32 /\ 8 <> 7 /\
  Echo.store (MMC._hydrabus self) !! 8 = None /\
  fst (MMC.read 7 (snd (MMC.write [x41; x42] 7 self))) = inr [x41; x42] /\
  fst (MMC.read 8 (snd (MMC.write [x41; x42] 7 self))) = inr [].
Proof.
  intros self.
  assert (Hn : 0 <= 7 < 2 ^ 32) by lia.
  assert (Hm : 0 <= 8 < 2 ^ 32) by lia.
  assert (Hne : 8 <> 7) by discriminate.
  assert (Hnone : Echo.store (MMC._hydrabus self) !! 8 = None)
    by apply lookup_empty.
  split; [reflexivity|]. split; [reflexivity|]. split; [exact Hn|].
  split; [exact Hm|]. split; [exact Hne|]. split; [exact Hnone|].
  destruct (echo_read_after_write self [] [x41; x42] 7 8 eq_refl eq_refl Hn Hm)
    as (Hsame & _ & _ & Hmiss).
  split; [exact Hsame|]. exact (Hmiss Hne Hnone).
Defined.

Lemma transport_calls_of_an_operation_witness :
  exists new,
    sent (MMC.exec (MMC.ReadBlock 7) (mock [x00])) = sent (mock [x00]) ++ new /\
    (length new <= 4)%nat.
Proof.
  destruct (transport_calls_of_an_operation (mkSpy (mkScript [x00]) []) []
              (MMC.ReadBlock 7)) as (new & Hs & Hl & _).
  exists new. split; [exact Hs|exact Hl].
Defined.
